(** * WandererKills WebSocket client (examples/websocket_client.py)

    A shallow embedding of the [WandererKillsClient] class: the session
    object, the websocket it owns, the values produced by [json.loads],
    the exceptions the methods raise and the records they hand to the
    logger.  Every method is a computation over an explicit [world]; the
    theorems at the end of the file are stated on these computations. *)

From Stdlib Require Import ZArith String Ascii List Sorted Floats Lia.
From stdpp Require Import base gmap sets list strings.

Local Open Scope string_scope.
Local Open Scope list_scope.
Local Open Scope Z_scope.

(** ** Python values

    What [json.loads] can return, and what the client builds before
    [json.dumps]: [None], booleans, integers, floats, strings, lists and
    dictionaries.  A dictionary keeps its insertion order, which is what
    iterating over it observes. *)

#[warnings="-register-all"]
Inductive pyval : Type :=
| PyNone
| PyBool (b : bool)
| PyInt (n : Z)
| PyFloat (x : float)
| PyStr (s : string)
| PyList (items : list pyval)
| PyDict (entries : list (string * pyval)).

(** Exceptions.  [Exception msg] is a bare [raise Exception(...)] of the
    client; the others are raised by Python itself or by the libraries. *)

Inductive exception_message : Type :=
| NotConnectedToWebSocket
| FailedToJoinChannel (response_data : pyval).

Inductive exn : Type :=
| Exception (msg : exception_message)
| ConnectionClosed
| JSONDecodeError
| AttributeError
| KeyError (key : string)
| TypeError
| OSError.

(** [except ConnectionClosed] and [except json.JSONDecodeError] select one
    class; [except Exception] selects every exception above. *)

Definition is_ConnectionClosed (e : exn) : bool :=
  match e with ConnectionClosed => true | _ => false end.

Definition is_JSONDecodeError (e : exn) : bool :=
  match e with JSONDecodeError => true | _ => false end.

Definition is_Exception (e : exn) : bool := true.

(** ** Logging

    One constructor per call of [logger] in the source, carrying the
    values interpolated in its format string. *)

Inductive level : Type := DEBUG | INFO | WARNING | ERROR.

Inductive log_message : Type :=
| LogConnecting (uri : string)
| LogConnected
| LogSubscriptionId (subscription_id : pyval)
| LogConnectionFailed (e : exn)
| LogConnectionClosed
| LogDecodeFailed (e : exn)
| LogHandlerError (e : exn)
| LogListenerError (e : exn)
| LogNewKillmails (system_id : pyval)
| LogKillmailCount (count : nat)
| LogTimestamp (timestamp : pyval)
| LogKillmail (i : Z) (killmail_id : pyval)
| LogVictim (victim_name ship_name : pyval)
| LogAttackers (count : nat)
| LogKillCount (system_id count : pyval)
| LogCommandOk (ref response : pyval)
| LogCommandFailed (ref response : pyval)
| LogSubscribed (system_ids : list Z)
| LogTotalSubscriptions (count : nat)
| LogUnsubscribed (system_ids : list Z)
| LogRemainingSubscriptions (count : nat)
| LogDisconnected.

(** ** The websocket

    The connection object returned by [websockets.connect].  [sent] holds
    the dictionaries whose [json.dumps] text was written to the peer, in
    order; [inbox] holds the text frames received and not yet read;
    [closed] is set once the connection is closed, by either side. *)

Record transport : Type := Transport {
  uri : string;
  closed : bool;
  sent : list pyval;
  inbox : list string
}.

(** ** The session object *)

Record WandererKillsClient : Type := Client {
  server_url : string;
  websocket : option transport;
  subscriptions : gset Z;
  subscription_id : pyval;
  running : bool
}.

(** What the next call of [websockets.connect] meets: a failure, or a peer
    that accepts and has these frames on the way (and may already have
    closed behind them). *)

Inductive dial : Type :=
| Refused (e : exn)
| Accepted (peer_closed : bool) (frames : list string).

(** The world a method runs in: the session, the peers to come, the
    records given to the logger, and the number of receive-loop tasks
    handed to [asyncio.create_task]. *)

Record world : Type := World {
  self : WandererKillsClient;
  net : list dial;
  logged : list (level * log_message);
  tasks : nat
}.

(** ** Outcomes and the method monad

    A call returns, raises, or never resumes from an [await] ([Pending]).
    [Unfinished] marks an exhausted iteration budget of a modelled loop. *)

Inductive outcome (A : Type) : Type :=
| Returned (a : A)
| Raised (e : exn)
| Pending
| Unfinished.

Arguments Returned {A} a.
Arguments Raised {A} e.
Arguments Pending {A}.
Arguments Unfinished {A}.

Definition M (A : Type) : Type := world -> world * outcome A.

#[global] Instance M_ret : MRet M := fun A a w => (w, Returned a).

#[global] Instance M_bind : MBind M := fun A B f m w =>
  match m w with
  | (w', Returned a) => f a w'
  | (w', Raised e) => (w', Raised e)
  | (w', Pending) => (w', Pending)
  | (w', Unfinished) => (w', Unfinished)
  end.

Definition raise {A : Type} (e : exn) : M A := fun w => (w, Raised e).

(** [try: body  except <classes selected by handles>: handler e] *)
Definition try_except {A : Type} (body : M A) (handler : exn -> option (M A)) : M A :=
  fun w =>
    match body w with
    | (w', Raised e) =>
        match handler e with
        | Some h => h w'
        | None => (w', Raised e)
        end
    | r => r
    end.

(** [try: body  finally: cleanup] : the cleanup runs when the body returns
    or raises; a body that never resumes never reaches it. *)
Definition try_finally {A : Type} (body : M A) (cleanup : M unit) : M A :=
  fun w =>
    match body w with
    | (w', Returned a) =>
        match cleanup w' with
        | (w'', Returned _) => (w'', Returned a)
        | (w'', Raised e) => (w'', Raised e)
        | (w'', Pending) => (w'', Pending)
        | (w'', Unfinished) => (w'', Unfinished)
        end
    | (w', Raised e) =>
        match cleanup w' with
        | (w'', Returned _) => (w'', Raised e)
        | (w'', Raised e') => (w'', Raised e')
        | (w'', Pending) => (w'', Pending)
        | (w'', Unfinished) => (w'', Unfinished)
        end
    | r => r
    end.

(** Reading and writing the fields of [self]. *)

Definition get_self : M WandererKillsClient := fun w => (w, Returned (self w)).

Definition put_self (c : WandererKillsClient) : M unit := fun w =>
  (World c (net w) (logged w) (tasks w), Returned tt).

Definition set_websocket (ws : option transport) : M unit :=
  c ← get_self;
  put_self (Client (server_url c) ws (subscriptions c) (subscription_id c) (running c)).

Definition set_subscriptions (s : gset Z) : M unit :=
  c ← get_self;
  put_self (Client (server_url c) (websocket c) s (subscription_id c) (running c)).

Definition set_subscription_id (v : pyval) : M unit :=
  c ← get_self;
  put_self (Client (server_url c) (websocket c) (subscriptions c) v (running c)).

Definition set_running (b : bool) : M unit :=
  c ← get_self;
  put_self (Client (server_url c) (websocket c) (subscriptions c) (subscription_id c) b).

(** [logger.debug / info / warning / error] *)
Definition logger (l : level) (m : log_message) : M unit := fun w =>
  (World (self w) (net w) (logged w ++ [(l, m)]) (tasks w), Returned tt).

(** [asyncio.create_task(self._listen_for_messages())] : the task is
    scheduled, it does not run inside the caller. *)
Definition create_task_listener : M unit := fun w =>
  (World (self w) (net w) (logged w) (S (tasks w)), Returned tt).

(** ** Python operations on values *)

Fixpoint dict_lookup (key : string) (entries : list (string * pyval)) : option pyval :=
  match entries with
  | [] => None
  | (k, v) :: rest => if String.eqb k key then Some v else dict_lookup key rest
  end.

(** [v.get(key, dflt)] : only a dictionary has the method. *)
Definition py_get_default (v : pyval) (key : string) (dflt : pyval) : M pyval :=
  match v with
  | PyDict entries => mret (default dflt (dict_lookup key entries))
  | _ => raise AttributeError
  end.

(** [v.get(key)] *)
Definition py_get (v : pyval) (key : string) : M pyval := py_get_default v key PyNone.

(** [v[key]] with a string key. *)
Definition py_getitem (v : pyval) (key : string) : M pyval :=
  match v with
  | PyDict entries =>
      match dict_lookup key entries with
      | Some x => mret x
      | None => raise (KeyError key)
      end
  | _ => raise TypeError
  end.

(** [len(v)] *)
Definition py_len (v : pyval) : M nat :=
  match v with
  | PyList items => mret (length items)
  | PyDict entries => mret (length entries)
  | PyStr s => mret (String.length s)
  | _ => raise TypeError
  end.

(** The elements a [for] loop over [v] visits: the items of a list, the
    keys of a dictionary, the characters of a string. *)
Definition py_iter (v : pyval) : M (list pyval) :=
  match v with
  | PyList items => mret items
  | PyDict entries => mret (map (fun kv => PyStr (fst kv)) entries)
  | PyStr s => mret (map (fun c => PyStr (String c EmptyString)) (list_ascii_of_string s))
  | _ => raise TypeError
  end.

(** Truth value of [v] in an [if]. *)
Definition py_bool (v : pyval) : bool :=
  match v with
  | PyNone => false
  | PyBool b => b
  | PyInt n => negb (n =? 0)%Z
  | PyFloat x => negb (PrimFloat.eqb x 0%float)
  | PyStr s => negb (String.eqb s "")
  | PyList items => match items with [] => false | _ => true end
  | PyDict entries => match entries with [] => false | _ => true end
  end.

(** [v == "literal"] *)
Definition py_eq_str (v : pyval) (literal : string) : bool :=
  match v with
  | PyStr s => String.eqb s literal
  | _ => false
  end.

(** [list(s)] for a set of integers; Python fixes no order, the model
    takes the one of [elements]. *)
Definition py_list_of_set (s : gset Z) : pyval := PyList (map PyInt (elements s)).

(** [s.replace(old, new)] for a non-empty [old]: every occurrence, left to
    right, without overlap.  [skip] counts the characters of a matched
    occurrence still to be dropped. *)
Fixpoint replace_from (old new : string) (skip : nat) (s : string) : string :=
  match s with
  | EmptyString => EmptyString
  | String c s' =>
      match skip with
      | S k => replace_from old new k s'
      | O =>
          if String.prefix old s
          then new +:+ replace_from old new (String.length old - 1)%nat s'
          else String c (replace_from old new 0 s')
      end
  end.

Definition py_replace (s old new : string) : string := replace_from old new 0 s.

(** ** Operations on the websocket of the session *)

(** [await websockets.connect(uri)] *)
Definition websockets_connect (u : string) : M transport := fun w =>
  match net w with
  | [] => (w, Raised OSError)
  | Refused e :: rest => (World (self w) rest (logged w) (tasks w), Raised e)
  | Accepted peer_closed frames :: rest =>
      (World (self w) rest (logged w) (tasks w),
       Returned (Transport u peer_closed [] frames))
  end.

(** [await self.websocket.send(json.dumps(data))] *)
Definition ws_send (data : pyval) : M unit :=
  c ← get_self;
  match websocket c with
  | None => raise AttributeError
  | Some t =>
      if closed t then raise ConnectionClosed
      else set_websocket (Some (Transport (uri t) (closed t) (sent t ++ [data]) (inbox t)))
  end.

(** [await self.websocket.recv()] : the next frame if one is there;
    otherwise [ConnectionClosed] on a closed connection, and a wait with
    no end on an open, silent one. *)
Definition ws_recv : M string :=
  c ← get_self;
  match websocket c with
  | None => raise AttributeError
  | Some t =>
      match inbox t with
      | frame :: rest =>
          set_websocket (Some (Transport (uri t) (closed t) (sent t) rest));;
          mret frame
      | [] => if closed t then raise ConnectionClosed else (fun w => (w, Pending))
      end
  end.

(** [await self.websocket.close()] *)
Definition ws_close : M unit :=
  c ← get_self;
  match websocket c with
  | None => raise AttributeError
  | Some t => set_websocket (Some (Transport (uri t) true (sent t) (inbox t)))
  end.

(** What the peer can do between two steps of the client. *)
Definition peer_closes (w : world) : world :=
  match websocket (self w) with
  | None => w
  | Some t =>
      let c := self w in
      World (Client (server_url c) (Some (Transport (uri t) true (sent t) (inbox t)))
                    (subscriptions c) (subscription_id c) (running c))
            (net w) (logged w) (tasks w)
  end.

Definition peer_sends (frame : string) (w : world) : world :=
  match websocket (self w) with
  | None => w
  | Some t =>
      let c := self w in
      World (Client (server_url c)
                    (Some (Transport (uri t) (closed t) (sent t) (inbox t ++ [frame])))
                    (subscriptions c) (subscription_id c) (running c))
            (net w) (logged w) (tasks w)
  end.

(** ** Outbound command frames *)

Definition command_frame (event : string) (payload : pyval) (ref : Z) : pyval :=
  PyDict [("topic", PyStr "killmails:lobby"); ("event", PyStr event);
          ("payload", payload); ("ref", PyInt ref)].

Definition join_message : pyval := command_frame "phx_join" (PyDict []) 1.

Definition subscribe_message (system_ids : list Z) : pyval :=
  command_frame "subscribe_systems" (PyDict [("systems", PyList (map PyInt system_ids))]) 2.

Definition unsubscribe_message (system_ids : list Z) : pyval :=
  command_frame "unsubscribe_systems" (PyDict [("systems", PyList (map PyInt system_ids))]) 3.

Definition status_message : pyval := command_frame "get_status" (PyDict []) 4.

Definition leave_message : pyval := command_frame "phx_leave" (PyDict []) 5.

(** ** WandererKillsClient *)

(** [__init__(self, server_url)] *)
Definition init (url : string) : WandererKillsClient :=
  Client (py_replace (py_replace url "http://" "ws://") "https://" "wss://")
         None ∅ PyNone false.

(** [_handle_message(self, message)] *)

Definition handle_killmail (i : Z) (killmail : pyval) : M unit :=
  killmail_id ← py_get killmail "killmail_id";
  victim ← py_get_default killmail "victim" (PyDict []);
  attackers ← py_get_default killmail "attackers" (PyList []);
  logger INFO (LogKillmail i killmail_id);;
  (if py_bool victim then
     victim_name ← py_get_default victim "character_name" (PyStr "Unknown");
     ship_name ← py_get_default victim "ship_type_name" (PyStr "Unknown ship");
     logger INFO (LogVictim victim_name ship_name)
   else mret tt);;
  (if py_bool attackers then
     n ← py_len attackers;
     logger INFO (LogAttackers n)
   else mret tt).

(** [for i, killmail in enumerate(killmails, i): ...] *)
Fixpoint for_killmails (i : Z) (killmails : list pyval) : M unit :=
  match killmails with
  | [] => mret tt
  | killmail :: rest => handle_killmail i killmail;; for_killmails (i + 1) rest
  end.

Definition _handle_message (message : pyval) : M unit :=
  event ← py_get message "event";
  payload ← py_get_default message "payload" (PyDict []);
  if py_eq_str event "killmail_update" then
    system_id ← py_get payload "system_id";
    killmails ← py_get_default payload "killmails" (PyList []);
    timestamp ← py_get payload "timestamp";
    logger INFO (LogNewKillmails system_id);;
    n ← py_len killmails;
    logger INFO (LogKillmailCount n);;
    logger INFO (LogTimestamp timestamp);;
    items ← py_iter killmails;
    for_killmails 1 items
  else if py_eq_str event "kill_count_update" then
    system_id ← py_get payload "system_id";
    count ← py_get payload "count";
    logger INFO (LogKillCount system_id count)
  else if py_eq_str event "phx_reply" then
    ref ← py_get message "ref";
    status ← py_get payload "status";
    response ← py_get_default payload "response" (PyDict []);
    if py_eq_str status "ok"
    then logger DEBUG (LogCommandOk ref response)
    else logger ERROR (LogCommandFailed ref response)
  else mret tt.

(** [subscribe_to_systems(self, system_ids)] *)
Definition subscribe_to_systems (system_ids : list Z) : M pyval :=
  c ← get_self;
  if negb (bool_decide (is_Some (websocket c))) || negb (running c)
  then raise (Exception NotConnectedToWebSocket)
  else
    ws_send (subscribe_message system_ids);;
    c ← get_self;
    set_subscriptions (subscriptions c ∪ list_to_set system_ids);;
    logger INFO (LogSubscribed system_ids);;
    c ← get_self;
    logger INFO (LogTotalSubscriptions (size (subscriptions c)));;
    mret (PyDict [("subscribed_systems", py_list_of_set (subscriptions c))]).

(** [unsubscribe_from_systems(self, system_ids)] *)
Definition unsubscribe_from_systems (system_ids : list Z) : M pyval :=
  c ← get_self;
  if negb (bool_decide (is_Some (websocket c))) || negb (running c)
  then raise (Exception NotConnectedToWebSocket)
  else
    ws_send (unsubscribe_message system_ids);;
    c ← get_self;
    set_subscriptions (subscriptions c ∖ list_to_set system_ids);;
    logger INFO (LogUnsubscribed system_ids);;
    c ← get_self;
    logger INFO (LogRemainingSubscriptions (size (subscriptions c)));;
    mret (PyDict [("subscribed_systems", py_list_of_set (subscriptions c))]).

(** [get_status(self)] *)
Definition get_status : M pyval :=
  c ← get_self;
  if negb (bool_decide (is_Some (websocket c))) || negb (running c)
  then raise (Exception NotConnectedToWebSocket)
  else
    ws_send status_message;;
    c ← get_self;
    mret (PyDict [("subscription_id", subscription_id c);
                  ("subscribed_systems", py_list_of_set (subscriptions c));
                  ("connected", PyBool (running c))]).

(** [disconnect(self)] : the bare [except:] takes every exception. *)
Definition disconnect : M unit :=
  set_running false;;
  c ← get_self;
  (if bool_decide (is_Some (websocket c)) then
     try_except (ws_send leave_message;; ws_close) (fun _ => Some (mret tt))
   else mret tt);;
  logger INFO LogDisconnected.

Section Decoder.

(** [json.loads] on a text frame: the value, or [None] where the
    library raises [JSONDecodeError]. *)
Variable json_loads : string -> option pyval.

Definition loads (text : string) : M pyval :=
  match json_loads text with
  | Some v => mret v
  | None => raise JSONDecodeError
  end.

(** The test of line 65: [and] evaluates its right operand only when
    the left one holds. *)
Definition join_confirmed (response_data : pyval) : M bool :=
  event ← py_get response_data "event";
  if py_eq_str event "phx_reply" then
    payload ← py_get_default response_data "payload" (PyDict []);
    status ← py_get payload "status";
    mret (py_eq_str status "ok")
  else mret false.

(** [connect(self)] *)
Definition connect : M pyval :=
  try_except
    (let client_id := "python_example_client" in
     c ← get_self;
     let u := server_url c +:+ "/socket/websocket?vsn=2.0.0&client_identifier="
              +:+ client_id in
     logger INFO (LogConnecting u);;
     ws ← websockets_connect u;
     set_websocket (Some ws);;
     set_running true;;
     ws_send join_message;;
     response ← ws_recv;
     response_data ← loads response;
     ok ← join_confirmed response_data;
     if (ok : bool) then
       p ← py_getitem response_data "payload";
       payload ← py_getitem p "response";
       sid ← py_get payload "subscription_id";
       set_subscription_id sid;;
       logger INFO LogConnected;;
       logger INFO (LogSubscriptionId sid);;
       create_task_listener;;
       mret payload
     else raise (Exception (FailedToJoinChannel response_data)))
    (fun e => if is_Exception e
              then Some (logger ERROR (LogConnectionFailed e);; raise e)
              else None).

(** One turn of the [while] body of [_listen_for_messages]; [true]
    means go on, [false] is the [break]. *)
Definition listen_once : M bool :=
  try_except
    (message ← ws_recv;
     data ← loads message;
     _handle_message data;;
     mret true)
    (fun e =>
       if is_ConnectionClosed e then
         Some (logger WARNING LogConnectionClosed;; mret false)
       else if is_JSONDecodeError e then
         Some (logger ERROR (LogDecodeFailed e);; mret true)
       else if is_Exception e then
         Some (logger ERROR (LogHandlerError e);; mret true)
       else None).

(** [while self.running and self.websocket: ...] with a budget of
    iterations. *)
Fixpoint listen_while (budget : nat) : M unit :=
  fun w =>
    if running (self w) && bool_decide (is_Some (websocket (self w))) then
      match budget with
      | O => (w, Unfinished)
      | S budget' =>
          (go_on ← listen_once;
           if (go_on : bool) then listen_while budget' else mret tt) w
      end
    else (w, Returned tt).

(** Every turn that goes on has taken one frame from the inbox, so one
    more turn than there are frames is enough. *)
Definition pending_frames (w : world) : nat :=
  match websocket (self w) with
  | Some t => length (inbox t)
  | None => O
  end.

(** [_listen_for_messages(self)] *)
Definition _listen_for_messages : M unit :=
  fun w =>
    try_finally
      (try_except
         (listen_while (S (pending_frames w)))
         (fun e => if is_Exception e
                   then Some (logger ERROR (LogListenerError e))
                   else None))
      (set_running false) w.

(** ** Sequences of calls made by the owner of the session *)

Inductive command : Type :=
| Connect
| Subscribe (system_ids : list Z)
| Unsubscribe (system_ids : list Z)
| GetStatus
| Disconnect.

Definition call (c : command) : M pyval :=
  match c with
  | Connect => connect
  | Subscribe system_ids => subscribe_to_systems system_ids
  | Unsubscribe system_ids => unsubscribe_from_systems system_ids
  | GetStatus => get_status
  | Disconnect => disconnect;; mret PyNone
  end.

(** The calls are made one after the other, the caller going on after
    an exception; a call that never resumes ends the sequence. *)
Fixpoint calls (cs : list command) (w : world) : world * list (outcome pyval) :=
  match cs with
  | [] => (w, [])
  | c :: rest =>
      let (w', r) := call c w in
      match r with
      | Pending | Unfinished => (w', [r])
      | Returned _ | Raised _ => let (w'', rs) := calls rest w' in (w'', r :: rs)
      end
  end.

End Decoder.

(** ** Observations on a world *)

(** The frames written on the connection the session holds. *)
Definition wire (w : world) : list pyval :=
  match websocket (self w) with
  | Some t => sent t
  | None => []
  end.

(** Whether the session holds a connection that still takes a [send]. *)
Definition is_open (w : world) : bool :=
  match websocket (self w) with
  | Some t => negb (closed t)
  | None => false
  end.

Definition frame_field (key : string) (frame : pyval) : option pyval :=
  match frame with
  | PyDict entries => dict_lookup key entries
  | _ => None
  end.

Definition frame_ref (frame : pyval) : option Z :=
  match frame_field "ref" frame with
  | Some (PyInt r) => Some r
  | _ => None
  end.

Definition frame_event (frame : pyval) : option string :=
  match frame_field "event" frame with
  | Some (PyStr e) => Some e
  | _ => None
  end.

(** The correlation ids on the wire, oldest first. *)
Definition refs (w : world) : list Z := omap frame_ref (wire w).

(** The [ref] written in the source for each outbound event. *)
Definition ref_of_event (event : string) : option Z :=
  if String.eqb event "phx_join" then Some 1
  else if String.eqb event "subscribe_systems" then Some 2
  else if String.eqb event "unsubscribe_systems" then Some 3
  else if String.eqb event "get_status" then Some 4
  else if String.eqb event "phx_leave" then Some 5
  else None.

Definition has_fixed_ref (frame : pyval) : bool :=
  match frame_event frame, frame_ref frame with
  | Some e, Some r => bool_decide (ref_of_event e = Some r)
  | _, _ => false
  end.

Definition returned {A : Type} (r : outcome A) : bool :=
  match r with
  | Returned _ => true
  | _ => false
  end.

(** The world with more records in the log. *)
Definition add_log (w : world) (l : list (level * log_message)) : world :=
  World (self w) (net w) (logged w ++ l) (tasks w).

(** The exceptions a method call or [len] on the wrong kind of value
    raises. *)
Definition value_error (e : exn) : Prop := e = AttributeError ∨ e = TypeError.

Definition benign {A : Type} (r : outcome A) : Prop :=
  match r with
  | Returned _ => True
  | Raised e => value_error e
  | Pending | Unfinished => False
  end.

(** A computation that reads nothing from the world and only writes to
    the log: the same records and the same outcome in every world. *)
Definition log_only {A : Type} (m : M A) : Prop :=
  ∃ l r, benign r ∧ ∀ w, m w = (add_log w l, r).

(** A computation that keeps an invariant [I] of the world, whatever its
    outcome, and returns only values in [Q]. *)
Definition keeps {A : Type} (I : world → Prop) (m : M A) (Q : A → Prop) : Prop :=
  ∀ w, I w → I (m w).1 ∧ ∀ a, (m w).2 = Returned a → Q a.

(** A property [P] of the frames written so far, as a property of the
    world. *)
Definition on_wire (P : list pyval → Prop) (w : world) : Prop := P (wire w).

(** ** The subscription set the specification describes

    The composition, in call order, of set union for a subscribe and set
    difference for an unsubscribe. *)

Definition is_topic_call (c : command) : bool :=
  match c with
  | Subscribe _ | Unsubscribe _ => true
  | _ => false
  end.

Definition spec_apply (s : gset Z) (c : command) : gset Z :=
  match c with
  | Subscribe system_ids => s ∪ list_to_set system_ids
  | Unsubscribe system_ids => s ∖ list_to_set system_ids
  | _ => s
  end.

Definition spec_subscription_set (cs : list command) (s : gset Z) : gset Z :=
  fold_left spec_apply cs s.

(** ** A mock peer

    Text frames stand for themselves; [sample_loads] decodes the ones
    listed in [sample_frames] and rejects every other text. *)

Definition reply_frame (status : string) (response : pyval) : pyval :=
  PyDict [("topic", PyStr "killmails:lobby"); ("event", PyStr "phx_reply");
          ("payload", PyDict [("status", PyStr status); ("response", response)]);
          ("ref", PyInt 1)].

Definition kill_count_frame : pyval :=
  PyDict [("topic", PyStr "killmails:lobby"); ("event", PyStr "kill_count_update");
          ("payload", PyDict [("system_id", PyInt 30000142); ("count", PyInt 3)]);
          ("ref", PyNone)].

Definition sample_frames : list (string * pyval) :=
  [("join-ok", reply_frame "ok" (PyDict [("subscription_id", PyStr "sub-1")]));
   ("join-error", reply_frame "error" (PyDict [("reason", PyStr "unauthorized")]));
   ("kill-count", kill_count_frame)].

Definition sample_loads (text : string) : option pyval := dict_lookup text sample_frames.

(** A new session and the peers it will meet. *)
Definition fresh (network : list dial) : world :=
  World (init "http://localhost:4004") network [] 0.

(** A session joined to a peer that has [frames] on the way. *)
Definition joined (frames : list string) : world :=
  (connect sample_loads (fresh [Accepted false ("join-ok" :: frames)])).1.

(** The same session once the peer has closed the connection and the
    receive loop has not yet run. *)
Definition lost : world := peer_closes (joined []).

(** The address the sample session dials. *)
Definition sample_uri : string :=
  "ws://localhost:4004/socket/websocket?vsn=2.0.0&client_identifier=python_example_client".

(** The world once the frames still to be read are [frames]. *)
Definition with_inbox (frames : list string) (w : world) : world :=
  match websocket (self w) with
  | Some t =>
      let c := self w in
      World (Client (server_url c) (Some (Transport (uri t) (closed t) (sent t) frames))
                    (subscriptions c) (subscription_id c) (running c))
            (net w) (logged w) (tasks w)
  | None => w
  end.

(** The receive loop is in its [while] with [frames] still to be read. *)
Definition listening (w : world) (frames : list string) : Prop :=
  running (self w) = true ∧ ∃ t, websocket (self w) = Some t ∧ inbox t = frames.

(** ** Further observations *)

(** What a command must leave alone on the connection and in the
    session. *)
Definition connection_untouched (w w' : world) : Prop :=
  running (self w') = running (self w) ∧
  subscription_id (self w') = subscription_id (self w) ∧
  inbox <$> websocket (self w') = inbox <$> websocket (self w) ∧
  closed <$> websocket (self w') = closed <$> websocket (self w).

(** The composition the tracked set follows when the calls are taken with
    their outcomes: a call counts only if it returned. *)
Definition spec_apply_returned (s : gset Z) (cr : command * outcome pyval) : gset Z :=
  if returned cr.2 then spec_apply s cr.1 else s.

(** A reply that confirms the join and carries nothing else, and the
    decoder of a peer that only ever sends it. *)
Definition bare_ok_reply : pyval :=
  PyDict [("event", PyStr "phx_reply"); ("payload", PyDict [("status", PyStr "ok")])].

Definition bare_ok_loads (text : string) : option pyval := Some bare_ok_reply.

(** Whether a decoded value is a JSON object. *)
Definition is_dict (v : pyval) : bool :=
  match v with
  | PyDict _ => true
  | _ => false
  end.

(** Whether [len] accepts a value. *)
Definition has_len (v : pyval) : bool :=
  match v with
  | PyList _ | PyDict _ | PyStr _ => true
  | _ => false
  end.

(** A killmail the handler gets through: an object whose victim, when it
    counts as true, is an object, and whose attackers, when they count as
    true, have a length. *)
Definition readable_killmail (killmail : pyval) : bool :=
  match killmail with
  | PyDict entries =>
      let victim := default (PyDict []) (dict_lookup "victim" entries) in
      let attackers := default (PyList []) (dict_lookup "attackers" entries) in
      (negb (py_bool victim) || is_dict victim) &&
      (negb (py_bool attackers) || has_len attackers)
  | _ => false
  end.

Definition killmail_id_of (killmail : pyval) : pyval :=
  match killmail with
  | PyDict entries => default PyNone (dict_lookup "killmail_id" entries)
  | _ => PyNone
  end.

(** The numbered killmail lines among some log records. *)
Definition killmail_lines (records : list (level * log_message)) : list (Z * pyval) :=
  omap (fun record =>
          match snd record with
          | LogKillmail i killmail_id => Some (i, killmail_id)
          | _ => None
          end) records.

(** The killmails numbered from [i] on, as the handler numbers them. *)
Fixpoint numbered_from (i : Z) (killmails : list pyval) : list (Z * pyval) :=
  match killmails with
  | [] => []
  | killmail :: rest => (i, killmail_id_of killmail) :: numbered_from (i + 1) rest
  end.

(** Whether [old] occurs somewhere in [s]. *)
Fixpoint occurs (old s : string) : bool :=
  String.prefix old s ||
  match s with
  | EmptyString => false
  | String _ s' => occurs old s'
  end.

(** On the connection the session holds, the join frame comes first: a
    connection that carries no frame at all is one that was already closed
    when it was obtained. *)
Definition join_first (w : world) : Prop :=
  match websocket (self w) with
  | None => True
  | Some t => (sent t = [] ∧ closed t = true) ∨ ∃ later, sent t = join_message :: later
  end.

(** On the connection the session holds, a leave frame is the last frame,
    there is one at most, and the connection is closed behind it. *)
Definition leave_last (w : world) : Prop :=
  match websocket (self w) with
  | None => True
  | Some t =>
      leave_message ∉ sent t ∨
      (closed t = true ∧ ∃ before, sent t = before ++ [leave_message] ∧
                                   leave_message ∉ before)
  end.

(** The integers of a list value, and the systems a command's result
    lists under "subscribed_systems". *)
Definition int_items (v : pyval) : list Z :=
  match v with
  | PyList items =>
      omap (fun x => match x with PyInt n => Some n | _ => None end) items
  | _ => []
  end.

Definition subscribed_systems_of (r : outcome pyval) : list Z :=
  match r with
  | Returned (PyDict entries) =>
      int_items (default PyNone (dict_lookup "subscribed_systems" entries))
  | _ => []
  end.

(** A session that is running on an open connection with one frame to
    read, and the records the receive loop writes when it reads it
    there. *)
Definition lone_frame (frame : string) : world :=
  World (Client "" (Some (Transport "" false [] [frame])) ∅ PyNone true) [] [] 0.

Definition frame_records (json_loads : string -> option pyval) (frame : string)
  : list (level * log_message) :=
  logged (listen_once json_loads (lone_frame frame)).1.

(** * Properties *)

(** ** Computations that only log *)

Lemma world_eta (w : world) : World (self w) (net w) (logged w) (tasks w) = w.
Proof. by destruct w. Qed.

Lemma add_log_nil (w : world) : add_log w [] = w.
Proof. unfold add_log. by rewrite app_nil_r, world_eta. Qed.

Lemma add_log_app (w : world) l l' : add_log (add_log w l) l' = add_log w (l ++ l').
Proof. unfold add_log. cbn. by rewrite app_assoc. Qed.

Lemma log_only_ret {A : Type} (a : A) : log_only (mret a).
Proof. exists [], (Returned a). split; [done |]. intros w. by rewrite add_log_nil. Qed.

Lemma log_only_raise_attribute {A : Type} : log_only (@raise A AttributeError).
Proof.
  exists [], (Raised AttributeError). split; [by left |].
  intros w. by rewrite add_log_nil.
Qed.

Lemma log_only_raise_type {A : Type} : log_only (@raise A TypeError).
Proof.
  exists [], (Raised TypeError). split; [by right |].
  intros w. by rewrite add_log_nil.
Qed.

Lemma log_only_logger (l : level) (m : log_message) : log_only (logger l m).
Proof. by exists [(l, m)], (Returned tt). Qed.

Lemma log_only_bind {A B : Type} (m : M A) (f : A → M B) :
  log_only m → (∀ a, log_only (f a)) → log_only (m ≫= f).
Proof.
  intros (l & r & Hr & Hm) Hf.
  destruct r as [a| e | |]; try done.
  - destruct (Hf a) as (l' & r' & Hr' & Hfa).
    exists (l ++ l')%list, r'. split; [done |]. intros w.
    unfold mbind, M_bind. by rewrite Hm, Hfa, add_log_app.
  - exists l, (Raised e). split; [done |]. intros w.
    unfold mbind, M_bind. by rewrite Hm.
Qed.

Create HintDb log_only_db.
#[local] Hint Resolve log_only_ret log_only_raise_attribute log_only_raise_type
  log_only_logger : log_only_db.

Lemma log_only_py_get_default v key dflt : log_only (py_get_default v key dflt).
Proof. destruct v; cbn; auto with log_only_db. Qed.

Lemma log_only_py_get v key : log_only (py_get v key).
Proof. apply log_only_py_get_default. Qed.

Lemma log_only_py_len v : log_only (py_len v).
Proof. destruct v; cbn; auto with log_only_db. Qed.

Lemma log_only_py_iter v : log_only (py_iter v).
Proof. destruct v; cbn; auto with log_only_db. Qed.

#[local] Hint Resolve log_only_py_get_default log_only_py_get log_only_py_len
  log_only_py_iter : log_only_db.

Ltac log_only_step :=
  match goal with
  | |- log_only (_ ≫= _) => apply log_only_bind; [| intros ?]
  | |- log_only (if ?b then _ else _) => destruct b
  | |- log_only _ => solve [auto with log_only_db]
  end.

Lemma log_only_handle_killmail i killmail : log_only (handle_killmail i killmail).
Proof. unfold handle_killmail. repeat log_only_step. Qed.

#[local] Hint Resolve log_only_handle_killmail : log_only_db.

Lemma log_only_for_killmails killmails : ∀ i, log_only (for_killmails i killmails).
Proof.
  induction killmails as [| k rest IH]; intros i; simpl.
  - apply log_only_ret.
  - apply log_only_bind; [auto with log_only_db | intros _; apply IH].
Qed.

#[local] Hint Resolve log_only_for_killmails : log_only_db.

Lemma log_only_handle_message message : log_only (_handle_message message).
Proof. unfold _handle_message. repeat log_only_step. Qed.

(** C10. Dispatching one inbound frame, whatever it holds (a
    killmail_update, a kill_count_update, a phx_reply of any status, an
    event the client does not know, or a value that makes the handler
    raise), leaves the session as it was: the subscription set, the stored
    subscription identifier and the running flag are unchanged, and so is
    every other field of the session object. *)
Theorem handle_message_keeps_session (message : pyval) (w : world) :
  let w' := (_handle_message message w).1 in
  subscriptions (self w') = subscriptions (self w) ∧
  subscription_id (self w') = subscription_id (self w) ∧
  running (self w') = running (self w) ∧
  self w' = self w.
Proof.
  destruct (log_only_handle_message message) as (l & r & _ & Hw).
  rewrite Hw. by cbn.
Qed.

(** ** The receive loop *)

Section Listener.
Variable json_loads : string -> option pyval.

Lemma listen_once_frame (w : world) (t : transport) (frame : string) (rest : list string) :
  websocket (self w) = Some t → inbox t = frame :: rest →
  ∃ l, listen_once json_loads w = (add_log (with_inbox rest w) l, Returned true) ∧
       (json_loads frame = None → l = [(ERROR, LogDecodeFailed JSONDecodeError)]) ∧
       (∀ data l' w', json_loads frame = Some data →
          _handle_message data w' = (add_log w' l', Returned tt) → l = l').
Proof.
  intros Hws Hin. destruct w as [[u ws S sid run] n lg k]. simpl in Hws. subst ws.
  destruct t as [tu tc ts ti]. simpl in Hin. subst ti.
  unfold listen_once, try_except, ws_recv, set_websocket, loads, mbind, M_bind, get_self, put_self, mret, M_ret.
  cbn -[_handle_message].
  destruct (json_loads frame) as [data |] eqn:Hd.
  - destruct (log_only_handle_message data) as (l & r & Hr & Hm).
    rewrite Hm. destruct r as [[] | e | |]; try done.
    + exists l. split; [done |]. split; [done |].
      intros data' l' w' [= <-] Hw'. rewrite Hm in Hw'.
      apply (f_equal (λ p, logged p.1)) in Hw'. cbn in Hw'.
      by apply app_inv_head in Hw'.
    + exists (l ++ [(ERROR, LogHandlerError e)])%list.
      destruct Hr as [-> | ->]; cbn; unfold add_log; cbn; rewrite <- app_assoc;
        (split; [done |]); (split; [done |]);
        intros data' l' w' [= <-] Hw'; rewrite Hm in Hw'; done.
  - exists [(ERROR, LogDecodeFailed JSONDecodeError)]. cbn. split; [done |].
    split; [done | intros; done].
Qed.

Lemma listening_next (w : world) frames frames' l :
  listening w frames → listening (add_log (with_inbox frames' w) l) frames'.
Proof.
  intros (Hrun & t & Hws & _). unfold listening, with_inbox. rewrite Hws. cbn.
  split; [done |]. by eexists.
Qed.

Lemma with_inbox_add_log (w : world) frames l :
  with_inbox frames (add_log w l) = add_log (with_inbox frames w) l.
Proof. unfold with_inbox, add_log. cbn. by destruct (websocket (self w)). Qed.

Lemma with_inbox_twice (w : world) frames frames' :
  with_inbox frames' (with_inbox frames w) = with_inbox frames' w.
Proof. unfold with_inbox. by destruct (websocket (self w)) eqn:E; cbn; rewrite ?E. Qed.

Lemma with_inbox_same (w : world) t :
  websocket (self w) = Some t → with_inbox (inbox t) w = w.
Proof.
  intros H. unfold with_inbox. rewrite H.
  destruct w as [[u ws S sid run] n lg k]. cbn in *. subst ws. by destruct t.
Qed.

Lemma listen_once_empty (w : world) (t : transport) :
  websocket (self w) = Some t → inbox t = [] →
  listen_once json_loads w =
    if closed t then (add_log w [(WARNING, LogConnectionClosed)], Returned false)
    else (w, Pending).
Proof.
  intros Hws Hin. destruct w as [[u ws S sid run] n lg k]. cbn in Hws. subst ws.
  destruct t as [tu tc ts ti]. cbn in Hin. subst ti.
  unfold listen_once, try_except, ws_recv, mbind, M_bind, get_self. cbn.
  by destruct tc.
Qed.

Lemma listen_while_turn (n : nat) (w : world) frame rest :
  listening w (frame :: rest) →
  ∃ l, listen_while json_loads (S n) w =
         listen_while json_loads n (add_log (with_inbox rest w) l) ∧
       (json_loads frame = None → l = [(ERROR, LogDecodeFailed JSONDecodeError)]) ∧
       (∀ data l' w', json_loads frame = Some data →
          _handle_message data w' = (add_log w' l', Returned tt) → l = l').
Proof.
  intros (Hrun & t & Hws & Hin).
  destruct (listen_once_frame w t frame rest Hws Hin) as (l & Hl & Hspec).
  exists l. split; [| done].
  cbn. rewrite Hrun, Hws. rewrite bool_decide_eq_true_2 by done. cbn.
  unfold mbind, M_bind. by rewrite Hl.
Qed.

Lemma listen_while_prefix (pre : list string) : ∀ (n : nat) (w : world) rest,
  listening w (pre ++ rest) →
  ∃ l, listen_while json_loads (length pre + n) w =
         listen_while json_loads n (add_log (with_inbox rest w) l).
Proof.
  induction pre as [| frame pre IH]; intros n w rest Hw.
  - exists []. rewrite add_log_nil. destruct Hw as (_ & t & Hws & Hin).
    cbn in Hin. subst rest. by rewrite (with_inbox_same _ _ Hws).
  - destruct (listen_while_turn (length pre + n) w frame (pre ++ rest) Hw) as (l & Hl & _).
    destruct (IH n (add_log (with_inbox (pre ++ rest) w) l) rest) as (l' & Hl').
    { by eapply listening_next. }
    exists (l ++ l')%list. cbn [length Nat.add]. rewrite Hl, Hl'.
    by rewrite with_inbox_add_log, with_inbox_twice, add_log_app.
Qed.

Lemma no_effect (w : world) : ∃ l frames, w = add_log (with_inbox frames w) l.
Proof.
  exists []. destruct (websocket (self w)) as [t |] eqn:Hws.
  - exists (inbox t). by rewrite add_log_nil, with_inbox_same.
  - exists []. rewrite add_log_nil. unfold with_inbox. by rewrite Hws.
Qed.

(** The loop only takes frames from the inbox and writes to the log. *)
Lemma listen_while_effect (n : nat) : ∀ w,
  ∃ l frames, (listen_while json_loads n w).1 = add_log (with_inbox frames w) l.
Proof.
  induction n as [| n IH]; intros w.
  - cbn. destruct (running (self w) && _); cbn; apply no_effect.
  - cbn. destruct (running (self w)) eqn:Hrun; cbn; [| apply no_effect].
    destruct (websocket (self w)) as [t |] eqn:Hws.
    2: { rewrite bool_decide_eq_false_2 by (by intros [? ?]). cbn. apply no_effect. }
    rewrite bool_decide_eq_true_2 by done. cbn.
    destruct (inbox t) as [| frame rest] eqn:Hin.
    + unfold mbind, M_bind. rewrite (listen_once_empty w t Hws Hin).
      destruct (closed t); cbn; [| apply no_effect].
      exists [(WARNING, LogConnectionClosed)], (inbox t).
      by rewrite with_inbox_same.
    + destruct (listen_once_frame w t frame rest Hws Hin) as (l & Hl & _).
      unfold mbind, M_bind. rewrite Hl.
      destruct (IH (add_log (with_inbox rest w) l)) as (l' & frames & Hl').
      rewrite Hl'. exists (l ++ l')%list, frames.
      by rewrite with_inbox_add_log, with_inbox_twice, add_log_app.
Qed.

Lemma listen_while_finishes (n : nat) : ∀ w,
  (pending_frames w < n)%nat → (listen_while json_loads n w).2 ≠ Unfinished.
Proof.
  induction n as [| n IH]; intros w Hn; [lia |].
  cbn. destruct (running (self w)) eqn:Hrun; cbn; [| done].
  destruct (websocket (self w)) as [t |] eqn:Hws.
  2: { by rewrite bool_decide_eq_false_2 by (by intros [? ?]). }
  rewrite bool_decide_eq_true_2 by done. cbn.
  destruct (inbox t) as [| frame rest] eqn:Hin.
  - unfold mbind, M_bind. rewrite (listen_once_empty w t Hws Hin).
    by destruct (closed t).
  - destruct (listen_once_frame w t frame rest Hws Hin) as (l & Hl & _).
    unfold mbind, M_bind. rewrite Hl. apply IH.
    unfold pending_frames in *. rewrite Hws, Hin in Hn.
    unfold add_log, with_inbox. rewrite Hws. cbn in *. lia.
Qed.

Lemma handle_kill_count (entries payload : list (string * pyval)) (w : world) :
  dict_lookup "event" entries = Some (PyStr "kill_count_update") →
  dict_lookup "payload" entries = Some (PyDict payload) →
  _handle_message (PyDict entries) w =
    (add_log w [(INFO, LogKillCount (default PyNone (dict_lookup "system_id" payload))
                                     (default PyNone (dict_lookup "count" payload)))],
     Returned tt).
Proof.
  intros Hev Hpl. unfold _handle_message, py_get, py_get_default, mbind, M_bind, mret, M_ret.
  rewrite Hev, Hpl. reflexivity.
Qed.

Lemma listen_wrapper (body : M unit) (w : world) :
  let w1 := (body w).1 in
  let w' := (try_finally
               (try_except body
                  (fun e => if is_Exception e
                            then Some (logger ERROR (LogListenerError e))
                            else None))
               (set_running false) w).1 in
  (∃ l, logged w' = logged w1 ++ l) ∧
  subscriptions (self w') = subscriptions (self w1) ∧
  subscription_id (self w') = subscription_id (self w1) ∧
  ((body w).2 ≠ Unfinished →
   (try_finally
      (try_except body
         (fun e => if is_Exception e
                   then Some (logger ERROR (LogListenerError e))
                   else None))
      (set_running false) w).2 ≠ Unfinished).
Proof.
  unfold try_finally, try_except. destruct (body w) as [w1 [[] | e | |]]; cbn.
  - split; [exists []; by rewrite app_nil_r | done].
  - split; [by eexists | done].
  - split; [exists []; by rewrite app_nil_r | done].
  - split; [exists []; by rewrite app_nil_r | done].
Qed.


Lemma logged_add_log (w : world) l : logged (add_log w l) = logged w ++ l.
Proof. done. Qed.

Lemma self_add_log (w : world) l : self (add_log w l) = self w.
Proof. done. Qed.

Lemma logged_with_inbox (w : world) frames : logged (with_inbox frames w) = logged w.
Proof. unfold with_inbox. by destruct (websocket (self w)). Qed.

Lemma subscriptions_with_inbox (w : world) frames :
  subscriptions (self (with_inbox frames w)) = subscriptions (self w).
Proof. unfold with_inbox. by destruct (websocket (self w)). Qed.

Lemma subscription_id_with_inbox (w : world) frames :
  subscription_id (self (with_inbox frames w)) = subscription_id (self w).
Proof. unfold with_inbox. by destruct (websocket (self w)). Qed.

(** C6. A frame that [json.loads] rejects does not end the receive loop
    and does not change the session: for every inbox in which a
    malformed frame comes before a well-formed kill_count_update frame,
    the loop records the decode failure, goes on, and later hands the
    kill count update to the log; the loop ends within its budget; the
    turn that meets the malformed frame only drops it from the inbox and
    logs the failure. *)
Theorem malformed_frame_does_not_stop_loop
    (w : world) (t : transport) (before between after : list string)
    (bad good : string) (entries payload : list (string * pyval)) :
  websocket (self w) = Some t →
  running (self w) = true →
  inbox t = before ++ bad :: between ++ good :: after →
  json_loads bad = None →
  json_loads good = Some (PyDict entries) →
  dict_lookup "event" entries = Some (PyStr "kill_count_update") →
  dict_lookup "payload" entries = Some (PyDict payload) →
  let w' := (_listen_for_messages json_loads w).1 in
  (∃ l1 l2 l3,
     logged w' =
       logged w ++ l1 ++ (ERROR, LogDecodeFailed JSONDecodeError) :: l2 ++
       (INFO, LogKillCount (default PyNone (dict_lookup "system_id" payload))
                           (default PyNone (dict_lookup "count" payload))) :: l3) ∧
  (_listen_for_messages json_loads w).2 ≠ Unfinished ∧
  subscriptions (self w') = subscriptions (self w) ∧
  subscription_id (self w') = subscription_id (self w) ∧
  (∀ w0 t0 rest,
     websocket (self w0) = Some t0 → inbox t0 = bad :: rest →
     listen_once json_loads w0 =
       (add_log (with_inbox rest w0) [(ERROR, LogDecodeFailed JSONDecodeError)],
        Returned true)).
Proof.
  intros Hws Hrun Hin Hbad Hgood Hev Hpl.
  assert (Hw : listening w (before ++ bad :: between ++ good :: after)).
  { split; [done |]. by exists t. }
  set (n := S (length after)).
  assert (Hbudget : S (pending_frames w) =
                    (length before + S (length between + S n))%nat).
  { unfold pending_frames, n. rewrite Hws, Hin.
    rewrite length_app. cbn. rewrite length_app. cbn. lia. }
  destruct (listen_while_prefix before (S (length between + S n)) w _ Hw)
    as (l1 & H1).
  set (w1 := add_log (with_inbox (bad :: between ++ good :: after) w) l1) in *.
  assert (Hw1 : listening w1 (bad :: between ++ good :: after))
    by (by eapply listening_next).
  destruct (listen_while_turn (length between + S n) w1 bad _ Hw1)
    as (lb & H2 & Hlb & _).
  rewrite (Hlb Hbad) in H2. clear Hlb.
  set (w2 := add_log (with_inbox (between ++ good :: after) w1) _) in *.
  assert (Hw2 : listening w2 (between ++ good :: after))
    by (by eapply listening_next).
  destruct (listen_while_prefix between (S n) w2 _ Hw2) as (l2 & H3).
  set (w3 := add_log (with_inbox (good :: after) w2) l2) in *.
  assert (Hw3 : listening w3 (good :: after)) by (by eapply listening_next).
  destruct (listen_while_turn n w3 good _ Hw3) as (lg & H4 & _ & Hlg).
  rewrite (Hlg _ _ w3 Hgood (handle_kill_count entries payload w3 Hev Hpl)) in H4.
  clear Hlg.
  set (w4 := add_log (with_inbox after w3) _) in *.
  destruct (listen_while_effect n w4) as (l3 & frames & H5).
  assert (Hloop : listen_while json_loads (S (pending_frames w)) w =
                  listen_while json_loads n w4).
  { rewrite Hbudget, H1, H2, H3, H4. done. }
  pose proof (listen_wrapper (listen_while json_loads (S (pending_frames w))) w)
    as (Hlog & Hsubs & Hsid & Hfin).
  cbn zeta. unfold _listen_for_messages.
  destruct Hlog as (l4 & Hlog).
  repeat split.
  - exists l1, l2, (l3 ++ l4)%list. rewrite Hlog, Hloop, H5.
    unfold w4, w3, w2, w1.
    rewrite ?logged_add_log, ?logged_with_inbox, ?logged_add_log, ?logged_with_inbox,
      ?logged_add_log, ?logged_with_inbox, ?logged_add_log, ?logged_with_inbox,
      ?logged_add_log, ?logged_with_inbox.
    rewrite <- !app_assoc. cbn [app]. by rewrite <- ?app_assoc.
  - apply Hfin. apply listen_while_finishes. lia.
  - rewrite Hsubs, Hloop, H5. unfold w4, w3, w2, w1.
    by rewrite ?self_add_log, ?subscriptions_with_inbox, ?self_add_log,
      ?subscriptions_with_inbox, ?self_add_log, ?subscriptions_with_inbox,
      ?self_add_log, ?subscriptions_with_inbox, ?self_add_log,
      ?subscriptions_with_inbox.
  - rewrite Hsid, Hloop, H5. unfold w4, w3, w2, w1.
    by rewrite ?self_add_log, ?subscription_id_with_inbox, ?self_add_log,
      ?subscription_id_with_inbox, ?self_add_log, ?subscription_id_with_inbox,
      ?self_add_log, ?subscription_id_with_inbox, ?self_add_log,
      ?subscription_id_with_inbox.
  - intros w0 t0 rest Hws0 Hin0.
    destruct (listen_once_frame w0 t0 bad rest Hws0 Hin0) as (l & Hl & Hspec & _).
    by rewrite Hl, (Hspec Hbad).
Qed.
End Listener.

Lemma malformed_frame_does_not_stop_loop_witness :
  let w := joined ["garbage"; "kill-count"] in
  let w' := (_listen_for_messages sample_loads w).1 in
  ∃ l1 l2 l3,
    logged w' =
      logged w ++ l1 ++ (ERROR, LogDecodeFailed JSONDecodeError) :: l2 ++
      (INFO, LogKillCount (PyInt 30000142) (PyInt 3)) :: l3.
Proof.
  intros w w'.
  refine (proj1 (malformed_frame_does_not_stop_loop sample_loads w
           (Transport sample_uri false [join_message] ["garbage"; "kill-count"])
           [] [] [] "garbage" "kill-count" _
           [("system_id", PyInt 30000142); ("count", PyInt 3)]
           _ _ _ _ _ _ _)); vm_compute; reflexivity.
Defined.


(** ** Commands on a session *)

Lemma not_connected_guard (c : WandererKillsClient) :
  websocket c = None ∨ running c = false →
  negb (bool_decide (is_Some (websocket c))) || negb (running c) = true.
Proof.
  intros [H | H]; rewrite H.
  - rewrite bool_decide_eq_false_2; [done | by intros [? ?]].
  - by rewrite orb_true_r.
Qed.

Lemma connected_guard (c : WandererKillsClient) (t : transport) :
  websocket c = Some t → running c = true →
  negb (bool_decide (is_Some (websocket c))) || negb (running c) = false.
Proof. intros -> ->. by rewrite bool_decide_eq_true_2. Qed.

Ltac run_method :=
  unfold ws_send, ws_close, set_websocket, set_subscriptions, set_running, logger,
    try_except, mbind, M_bind, get_self, put_self, mret, M_ret, raise; cbn.

Lemma subscribe_open (w : world) (t : transport) (system_ids : list Z) :
  websocket (self w) = Some t → running (self w) = true → closed t = false →
  subscribe_to_systems system_ids w =
    (World (Client (server_url (self w))
              (Some (Transport (uri t) false (sent t ++ [subscribe_message system_ids])
                       (inbox t)))
              (subscriptions (self w) ∪ list_to_set system_ids)
              (subscription_id (self w)) true)
       (net w)
       (logged w ++
          [(INFO, LogSubscribed system_ids);
           (INFO, LogTotalSubscriptions
                    (size (subscriptions (self w) ∪ list_to_set system_ids)))])
       (tasks w),
     Returned (PyDict [("subscribed_systems",
                        py_list_of_set (subscriptions (self w) ∪ list_to_set system_ids))])).
Proof.
  intros Hws Hrun Hopen.
  unfold subscribe_to_systems, mbind, M_bind, get_self. cbn.
  rewrite (connected_guard _ _ Hws Hrun). run_method.
  rewrite Hws, Hopen, Hrun. cbn. by rewrite <- app_assoc.
Qed.

Lemma unsubscribe_open (w : world) (t : transport) (system_ids : list Z) :
  websocket (self w) = Some t → running (self w) = true → closed t = false →
  unsubscribe_from_systems system_ids w =
    (World (Client (server_url (self w))
              (Some (Transport (uri t) false (sent t ++ [unsubscribe_message system_ids])
                       (inbox t)))
              (subscriptions (self w) ∖ list_to_set system_ids)
              (subscription_id (self w)) true)
       (net w)
       (logged w ++
          [(INFO, LogUnsubscribed system_ids);
           (INFO, LogRemainingSubscriptions
                    (size (subscriptions (self w) ∖ list_to_set system_ids)))])
       (tasks w),
     Returned (PyDict [("subscribed_systems",
                        py_list_of_set (subscriptions (self w) ∖ list_to_set system_ids))])).
Proof.
  intros Hws Hrun Hopen.
  unfold unsubscribe_from_systems, mbind, M_bind, get_self. cbn.
  rewrite (connected_guard _ _ Hws Hrun). run_method.
  rewrite Hws, Hopen, Hrun. cbn. by rewrite <- app_assoc.
Qed.

Lemma get_status_open (w : world) (t : transport) :
  websocket (self w) = Some t → running (self w) = true → closed t = false →
  get_status w =
    (World (Client (server_url (self w))
              (Some (Transport (uri t) false (sent t ++ [status_message]) (inbox t)))
              (subscriptions (self w)) (subscription_id (self w)) true)
       (net w) (logged w) (tasks w),
     Returned (PyDict [("subscription_id", subscription_id (self w));
                       ("subscribed_systems", py_list_of_set (subscriptions (self w)));
                       ("connected", PyBool true)])).
Proof.
  intros Hws Hrun Hopen.
  unfold get_status, mbind, M_bind, get_self. cbn.
  rewrite (connected_guard _ _ Hws Hrun). run_method.
  by rewrite Hws, Hopen, Hrun.
Qed.

(** On a connection that is closed the [send] raises and nothing after it
    runs. *)
Lemma command_on_closed (w : world) (t : transport) (system_ids : list Z) :
  websocket (self w) = Some t → running (self w) = true → closed t = true →
  subscribe_to_systems system_ids w = (w, Raised ConnectionClosed) ∧
  unsubscribe_from_systems system_ids w = (w, Raised ConnectionClosed) ∧
  get_status w = (w, Raised ConnectionClosed).
Proof.
  intros Hws Hrun Hclosed.
  unfold subscribe_to_systems, unsubscribe_from_systems, get_status, mbind, M_bind,
    get_self. cbn.
  rewrite (connected_guard _ _ Hws Hrun). run_method.
  by rewrite Hws, Hclosed.
Qed.

(** Without a websocket, or when not running, the guard raises before
    anything else runs. *)
Lemma command_when_not_connected (w : world) (system_ids : list Z) :
  websocket (self w) = None ∨ running (self w) = false →
  subscribe_to_systems system_ids w = (w, Raised (Exception NotConnectedToWebSocket)) ∧
  unsubscribe_from_systems system_ids w = (w, Raised (Exception NotConnectedToWebSocket)) ∧
  get_status w = (w, Raised (Exception NotConnectedToWebSocket)).
Proof.
  intros H. apply not_connected_guard in H.
  unfold subscribe_to_systems, unsubscribe_from_systems, get_status.
  unfold mbind, M_bind, get_self. cbn. by rewrite H.
Qed.

(** C8 (as amended). In a running session whose connection still takes
    the frame, subscribe_to_systems writes one subscribe frame whose
    payload lists exactly the given keys, adds the keys to the
    subscription set at once, reads no reply (the inbox is untouched and
    the call returns), and returns the set as it then stands. *)
Theorem subscribe_sends_and_tracks (w : world) (t : transport) (system_ids : list Z) :
  websocket (self w) = Some t → running (self w) = true → closed t = false →
  let w' := (subscribe_to_systems system_ids w).1 in
  wire w' = wire w ++ [subscribe_message system_ids] ∧
  frame_event (subscribe_message system_ids) = Some "subscribe_systems" ∧
  frame_field "payload" (subscribe_message system_ids) =
    Some (PyDict [("systems", PyList (map PyInt system_ids))]) ∧
  subscriptions (self w') = subscriptions (self w) ∪ list_to_set system_ids ∧
  (subscribe_to_systems system_ids w).2 =
    Returned (PyDict [("subscribed_systems", py_list_of_set (subscriptions (self w')))]) ∧
  inbox <$> websocket (self w') = Some (inbox t).
Proof.
  intros Hws Hrun Hopen. cbn zeta.
  rewrite (subscribe_open w t system_ids Hws Hrun Hopen).
  unfold wire. rewrite Hws. by cbn.
Qed.

Lemma subscribe_sends_and_tracks_witness :
  let w := joined [] in
  let w' := (subscribe_to_systems [30000142; 30002659] w).1 in
  wire w' = wire w ++ [subscribe_message [30000142; 30002659]] ∧
  subscriptions (self w') = subscriptions (self w) ∪ list_to_set [30000142; 30002659].
Proof.
  intros w w'.
  assert (H := subscribe_sends_and_tracks w (Transport sample_uri false [join_message] [])
                 [30000142; 30002659]).
  split; apply H; vm_compute; reflexivity.
Defined.

(** C8 as stated fails: the session is running, the peer has closed the
    connection, and subscribe_to_systems raises from its [send]; no frame
    is written, the set is not changed and nothing is returned. *)
Lemma subscribe_on_lost_connection :
  running (self lost) = true ∧
  subscribe_to_systems [30000142] lost = (lost, Raised ConnectionClosed) ∧
  wire (subscribe_to_systems [30000142] lost).1 = wire lost ∧
  subscriptions (self (subscribe_to_systems [30000142] lost).1) = ∅.
Proof. repeat split; vm_compute; reflexivity. Qed.

(** ** What connect leaves alone *)

(** The test on the reply reads nothing from the world and changes
    nothing in it. *)
Lemma join_confirmed_pure (response_data : pyval) :
  ∃ r, ∀ w, join_confirmed response_data w = (w, r).
Proof.
  unfold join_confirmed, py_get, py_get_default, mbind, M_bind, mret, M_ret, raise.
  destruct response_data as [| | | | | | entries]; try (by eexists).
  destruct (py_eq_str (default PyNone (dict_lookup "event" entries)) "phx_reply");
    [| by eexists].
  destruct (default (PyDict []) (dict_lookup "payload" entries)); by eexists.
Qed.

Section Reconnect.
Variable json_loads : string -> option pyval.

(** However it ends, connect does not touch the subscription set. *)
Lemma connect_keeps_subscriptions (w : world) :
  subscriptions (self (connect json_loads w).1) = subscriptions (self w).
Proof.
  destruct w as [c n l k].
  unfold connect, try_except, websockets_connect, ws_send, ws_recv, loads,
    set_websocket, set_running, set_subscription_id, create_task_listener, logger,
    mbind, M_bind, get_self, put_self, mret, M_ret, raise;
  cbn -[join_confirmed py_getitem py_get].
  destruct n as [| [e | [|] [| frame frames]] rest];
    cbn -[join_confirmed py_getitem py_get]; try done.
  destruct (json_loads frame) as [data |]; cbn -[join_confirmed py_getitem py_get];
    [| done].
  destruct (join_confirmed_pure data) as [r ->].
  destruct r as [[|] | e | |]; cbn -[py_getitem py_get]; try done.
  unfold py_getitem, py_get, py_get_default.
  destruct data as [| | | | | | entries]; cbn; try done.
  destruct (dict_lookup "payload" entries) as [p |]; cbn; [| done].
  destruct p as [| | | | | | payload]; cbn; try done.
  destruct (dict_lookup "response" payload) as [resp |]; cbn; [| done].
  destruct resp; cbn; done.
Qed.
End Reconnect.

(** ** Sequences of subscribe and unsubscribe calls *)

Section Calls.
Variable json_loads : string -> option pyval.

(** C1 (as amended). For every sequence of subscribe and unsubscribe
    calls made on a running session whose connection takes every frame,
    each call returns, and the tracked set is the composition, in call
    order, of union (subscribe) and difference (unsubscribe) of the key
    lists, applied to the set the session held before the first call; that
    set is empty for a session that has just been constructed and has
    made its connect. *)
Theorem tracked_set_follows_calls (cs : list command) (w : world) (t : transport) :
  websocket (self w) = Some t → running (self w) = true → closed t = false →
  forallb is_topic_call cs = true →
  subscriptions (self (calls json_loads cs w).1) =
    spec_subscription_set cs (subscriptions (self w)) ∧
  forallb returned (calls json_loads cs w).2 = true ∧
  length (calls json_loads cs w).2 = length cs ∧
  (∀ url network records n,
     subscriptions (self (connect json_loads (World (init url) network records n)).1) = ∅).
Proof.
  intros Hws Hrun Hopen Hcs.
  assert (Hfold : subscriptions (self (calls json_loads cs w).1) =
                    spec_subscription_set cs (subscriptions (self w)) ∧
                  forallb returned (calls json_loads cs w).2 = true ∧
                  length (calls json_loads cs w).2 = length cs).
  { revert w t Hws Hrun Hopen Hcs.
    induction cs as [| c cs IH]; intros w t Hws Hrun Hopen Hcs; [done |].
    cbn in Hcs. apply andb_prop in Hcs as [Hc Hcs].
    destruct c as [| system_ids | system_ids | |]; try done; cbn [calls call].
    - rewrite (subscribe_open w t system_ids Hws Hrun Hopen).
      match goal with |- context [calls json_loads cs ?w1] =>
        destruct (IH w1 _ eq_refl eq_refl eq_refl Hcs) as (H1 & H2 & H3);
        destruct (calls json_loads cs w1) as [w2 rs] end.
      cbn in *. by rewrite H1, H2, H3.
    - rewrite (unsubscribe_open w t system_ids Hws Hrun Hopen).
      match goal with |- context [calls json_loads cs ?w1] =>
        destruct (IH w1 _ eq_refl eq_refl eq_refl Hcs) as (H1 & H2 & H3);
        destruct (calls json_loads cs w1) as [w2 rs] end.
      cbn in *. by rewrite H1, H2, H3. }
  destruct Hfold as (H1 & H2 & H3). repeat split; try done.
  intros url network records n. by rewrite connect_keeps_subscriptions.
Qed.
End Calls.

Lemma tracked_set_follows_calls_witness :
  subscriptions
    (self (calls sample_loads
             [Subscribe [30000142; 30002659]; Unsubscribe [30000142]] (joined [])).1) =
  spec_subscription_set [Subscribe [30000142; 30002659]; Unsubscribe [30000142]]
    (subscriptions (self (joined []))).
Proof.
  refine (proj1 (tracked_set_follows_calls sample_loads
            [Subscribe [30000142; 30002659]; Unsubscribe [30000142]] (joined [])
            (Transport sample_uri false [join_message] []) _ _ _ _)); vm_compute; reflexivity.
Defined.

(** C1 as stated fails: the session is running, the peer has closed the
    connection, the subscribe call raises and the tracked set stays empty,
    while the composition over the calls made holds the key. *)
Lemma tracked_set_misses_failed_call :
  running (self lost) = true ∧
  (calls sample_loads [Subscribe [30000142]] lost).2 = [Raised ConnectionClosed] ∧
  subscriptions (self (calls sample_loads [Subscribe [30000142]] lost).1) ≠
    spec_subscription_set [Subscribe [30000142]] (subscriptions (self lost)).
Proof.
  split; [vm_compute; reflexivity |].
  split; [vm_compute; reflexivity |].
  refine (proj1 (bool_decide_eq_false _) _). vm_compute. reflexivity.
Qed.

(** ** Leaving *)

Lemma disconnect_unconnected (w : world) :
  websocket (self w) = None →
  disconnect w =
    (World (Client (server_url (self w)) None (subscriptions (self w))
              (subscription_id (self w)) false)
       (net w) (logged w ++ [(INFO, LogDisconnected)]) (tasks w),
     Returned tt).
Proof.
  intros Hws. unfold disconnect. run_method. by rewrite Hws.
Qed.

Lemma disconnect_closed (w : world) (t : transport) :
  websocket (self w) = Some t → closed t = true →
  disconnect w =
    (World (Client (server_url (self w)) (Some t) (subscriptions (self w))
              (subscription_id (self w)) false)
       (net w) (logged w ++ [(INFO, LogDisconnected)]) (tasks w),
     Returned tt).
Proof.
  intros Hws Hcl. unfold disconnect. run_method. rewrite Hws. cbn. by rewrite Hcl.
Qed.

Lemma disconnect_open (w : world) (t : transport) :
  websocket (self w) = Some t → closed t = false →
  disconnect w =
    (World (Client (server_url (self w))
              (Some (Transport (uri t) true (sent t ++ [leave_message]) (inbox t)))
              (subscriptions (self w)) (subscription_id (self w)) false)
       (net w) (logged w ++ [(INFO, LogDisconnected)]) (tasks w),
     Returned tt).
Proof.
  intros Hws Hcl. unfold disconnect. run_method. rewrite Hws. cbn. by rewrite Hcl.
Qed.

Lemma disconnect_once (w : world) :
  (disconnect w).2 = Returned tt ∧
  running (self (disconnect w).1) = false ∧
  is_open (disconnect w).1 = false ∧
  wire (disconnect w).1 = (if is_open w then wire w ++ [leave_message] else wire w).
Proof.
  unfold is_open, wire.
  destruct (websocket (self w)) as [t |] eqn:Hws.
  - destruct (closed t) eqn:Hcl.
    + rewrite (disconnect_closed w t Hws Hcl). cbn. by rewrite Hcl.
    + by rewrite (disconnect_open w t Hws Hcl).
  - by rewrite (disconnect_unconnected w Hws).
Qed.

(** C7. disconnect returns normally in every state of the session and
    leaves the running flag false; it writes the leave frame only on a
    connection that is still open and then closes it, so the connection,
    if any, is closed afterwards; a second disconnect also returns
    normally, keeps the flag false and writes nothing more. *)
Theorem disconnect_is_safe_and_repeatable (w : world) :
  let w1 := (disconnect w).1 in
  let w2 := (disconnect w1).1 in
  (disconnect w).2 = Returned tt ∧
  running (self w1) = false ∧
  is_open w1 = false ∧
  wire w1 = (if is_open w then wire w ++ [leave_message] else wire w) ∧
  (disconnect w1).2 = Returned tt ∧
  running (self w2) = false ∧
  wire w2 = wire w1.
Proof.
  cbn zeta.
  destruct (disconnect_once w) as (H1 & H2 & H3 & H4).
  destruct (disconnect_once (disconnect w).1) as (H5 & H6 & _ & H8).
  rewrite H3 in H8. done.
Qed.

(** ** Repeated and redundant topic calls *)

Lemma subscribe_tracks (w : world) (system_ids : list Z) :
  let w' := (subscribe_to_systems system_ids w).1 in
  subscriptions (self w') =
    (if running (self w) && is_open w
     then subscriptions (self w) ∪ list_to_set system_ids
     else subscriptions (self w)) ∧
  running (self w') = running (self w) ∧
  is_open w' = is_open w.
Proof.
  cbn zeta. unfold is_open.
  destruct (websocket (self w)) as [t |] eqn:Hws.
  2: { rewrite (proj1 (command_when_not_connected w system_ids (or_introl Hws))).
       by cbn; rewrite ?Hws, ?andb_false_r. }
  destruct (running (self w)) eqn:Hrun.
  2: { rewrite (proj1 (command_when_not_connected w system_ids (or_intror Hrun))).
       by cbn; rewrite ?Hws, ?Hrun. }
  destruct (closed t) eqn:Hcl.
  - rewrite (proj1 (command_on_closed w t system_ids Hws Hrun Hcl)).
    by cbn; rewrite ?Hws, ?Hrun, ?Hcl.
  - by rewrite (subscribe_open w t system_ids Hws Hrun Hcl).
Qed.

Lemma unsubscribe_tracks (w : world) (system_ids : list Z) :
  let w' := (unsubscribe_from_systems system_ids w).1 in
  subscriptions (self w') =
    (if running (self w) && is_open w
     then subscriptions (self w) ∖ list_to_set system_ids
     else subscriptions (self w)) ∧
  returned (unsubscribe_from_systems system_ids w).2 = running (self w) && is_open w.
Proof.
  cbn zeta. unfold is_open.
  destruct (websocket (self w)) as [t |] eqn:Hws.
  2: { rewrite (proj1 (proj2 (command_when_not_connected w system_ids (or_introl Hws)))).
       by cbn; rewrite ?andb_false_r. }
  destruct (running (self w)) eqn:Hrun.
  2: { rewrite (proj1 (proj2 (command_when_not_connected w system_ids (or_intror Hrun)))).
       by cbn; rewrite ?Hrun. }
  destruct (closed t) eqn:Hcl.
  - rewrite (proj1 (proj2 (command_on_closed w t system_ids Hws Hrun Hcl))).
    by cbn; rewrite ?Hrun.
  - by rewrite (unsubscribe_open w t system_ids Hws Hrun Hcl).
Qed.

(** C9 (as amended). On the subscription set, subscribe_to_systems is
    idempotent in every state of the session: a second call with the same
    list leaves the set as the first call left it, and a list with
    repeated keys has the effect of the list without the repetitions.
    Unsubscribing keys that are not in the set leaves the set unchanged,
    and the absent keys are no cause of failure: the call returns exactly
    when the session is running and its connection takes the frame. *)
Theorem topic_calls_are_idempotent (w : world) (system_ids absent : list Z) :
  (∀ k, k ∈ absent → k ∉ subscriptions (self w)) →
  subscriptions
    (self (subscribe_to_systems system_ids (subscribe_to_systems system_ids w).1).1) =
    subscriptions (self (subscribe_to_systems system_ids w).1) ∧
  subscriptions (self (subscribe_to_systems system_ids w).1) =
    subscriptions (self (subscribe_to_systems (remove_dups system_ids) w).1) ∧
  subscriptions (self (unsubscribe_from_systems absent w).1) = subscriptions (self w) ∧
  returned (unsubscribe_from_systems absent w).2 = running (self w) && is_open w.
Proof.
  intros Habsent.
  destruct (subscribe_tracks w system_ids) as (H1 & H2 & H3).
  destruct (subscribe_tracks (subscribe_to_systems system_ids w).1 system_ids)
    as (H4 & _ & _).
  destruct (subscribe_tracks w (remove_dups system_ids)) as (H5 & _ & _).
  destruct (unsubscribe_tracks w absent) as (H6 & H7).
  cbn zeta in *. rewrite H4, H2, H3, H1, H5, H6, H7.
  destruct (running (self w) && is_open w); repeat split; try done.
  - by rewrite <- (assoc_L (∪)), (idemp_L (∪)).
  - f_equal. apply set_eq. intros k.
    by rewrite !elem_of_list_to_set, elem_of_remove_dups.
  - apply set_eq. intros k. rewrite elem_of_difference, elem_of_list_to_set.
    split; [by intros [? _] |].
    intros Hk. split; [done |]. intros Hin. by apply (Habsent k Hin).
Qed.

Lemma topic_calls_are_idempotent_witness :
  let w := joined [] in
  subscriptions (self (unsubscribe_from_systems [30000142] w).1) = subscriptions (self w) ∧
  returned (unsubscribe_from_systems [30000142] w).2 = running (self w) && is_open w.
Proof.
  intros w.
  assert (H : ∀ k, k ∈ [30000142] → k ∉ subscriptions (self w)).
  { intros k _. assert (Hs : subscriptions (self w) = ∅) by (vm_compute; reflexivity).
    rewrite Hs. apply not_elem_of_empty. }
  split; apply (topic_calls_are_idempotent w [30000142; 30000142] [30000142] H).
Defined.

(** C9 as stated fails in its last part: the session is running and the
    key is not in the set, yet unsubscribe_from_systems fails, because the
    peer has closed the connection and the [send] raises. *)
Lemma unsubscribe_on_lost_connection :
  running (self lost) = true ∧
  bool_decide (30000142 ∈ subscriptions (self lost)) = false ∧
  unsubscribe_from_systems [30000142] lost = (lost, Raised ConnectionClosed).
Proof. repeat split; vm_compute; reflexivity. Qed.

(** ** Connecting *)

Section Connect.
Variable json_loads : string -> option pyval.

Ltac run_connect :=
  unfold connect, try_except, websockets_connect, ws_send, ws_recv, loads,
    set_websocket, set_running, set_subscription_id, create_task_listener, logger,
    mbind, M_bind, get_self, put_self, mret, M_ret, raise;
  cbn -[join_confirmed py_getitem py_get].

(** C5 (as amended). When the first reply decodes to a phx_reply whose
    payload has status "ok" and carries a response object, connect takes
    the subscription identifier from that response and stores it in the
    session, leaves the running flag set, has written exactly one frame on
    the new connection, has scheduled the receive loop, and returns the
    response object.  The one frame written is the join command: event
    "phx_join" on topic "killmails:lobby", with an empty payload and
    correlation id 1. *)
Theorem connect_joins (w : world) (frame : string) (frames : list string)
    (rest : list dial) (entries payload response : list (string * pyval)) :
  net w = Accepted false (frame :: frames) :: rest →
  json_loads frame = Some (PyDict entries) →
  dict_lookup "event" entries = Some (PyStr "phx_reply") →
  dict_lookup "payload" entries = Some (PyDict payload) →
  dict_lookup "status" payload = Some (PyStr "ok") →
  dict_lookup "response" payload = Some (PyDict response) →
  let w' := (connect json_loads w).1 in
  (connect json_loads w).2 = Returned (PyDict response) ∧
  subscription_id (self w') = default PyNone (dict_lookup "subscription_id" response) ∧
  running (self w') = true ∧
  wire w' = [join_message] ∧
  tasks w' = S (tasks w) ∧
  subscriptions (self w') = subscriptions (self w) ∧
  net w' = rest ∧
  frame_event join_message = Some "phx_join" ∧
  frame_field "topic" join_message = Some (PyStr "killmails:lobby") ∧
  frame_field "payload" join_message = Some (PyDict []) ∧
  frame_ref join_message = Some 1 ∧
  omap frame_event (wire w') = ["phx_join"].
Proof.
  intros Hnet Hloads Hev Hpl Hst Hresp.
  destruct w as [c n l k]. cbn in Hnet. subst n.
  run_connect. rewrite Hloads.
  unfold join_confirmed, py_getitem, py_get, py_get_default, mbind, M_bind, mret, M_ret.
  cbn. rewrite Hev. cbn. rewrite Hpl. cbn. rewrite Hst. cbn. rewrite Hresp. by cbn.
Qed.

(** C4 (as amended). Whatever the key list, subscribe_to_systems,
    unsubscribe_from_systems and get_status, called on a session that has
    no websocket or whose running flag is false, raise the "Not connected
    to WebSocket" exception and leave the world exactly as it was: no
    frame is written and the subscription set, like every other field, is
    unchanged.  A newly constructed session is in that state, and so is a
    new session after a connect that could not open the connection,
    whether the peer refused it or there was no peer to dial. *)
Theorem commands_refused_when_not_running (w : world) (system_ids : list Z) :
  websocket (self w) = None ∨ running (self w) = false →
  let failed := Raised (Exception NotConnectedToWebSocket) in
  subscribe_to_systems system_ids w = (w, failed) ∧
  unsubscribe_from_systems system_ids w = (w, failed) ∧
  get_status w = (w, failed) ∧
  wire (subscribe_to_systems system_ids w).1 = wire w ∧
  wire (unsubscribe_from_systems system_ids w).1 = wire w ∧
  wire (get_status w).1 = wire w ∧
  subscriptions (self (subscribe_to_systems system_ids w).1) = subscriptions (self w) ∧
  subscriptions (self (unsubscribe_from_systems system_ids w).1) = subscriptions (self w) ∧
  subscriptions (self (get_status w).1) = subscriptions (self w) ∧
  (∀ url network records n,
     let w0 := World (init url) network records n in
     subscribe_to_systems system_ids w0 = (w0, failed) ∧
     unsubscribe_from_systems system_ids w0 = (w0, failed) ∧
     get_status w0 = (w0, failed)) ∧
  (∀ url e rest records n,
     let w1 := (connect json_loads (World (init url) (Refused e :: rest) records n)).1 in
     (connect json_loads (World (init url) (Refused e :: rest) records n)).2 = Raised e ∧
     subscribe_to_systems system_ids w1 = (w1, failed) ∧
     unsubscribe_from_systems system_ids w1 = (w1, failed) ∧
     get_status w1 = (w1, failed)) ∧
  (∀ url records n,
     let w1 := (connect json_loads (World (init url) [] records n)).1 in
     (connect json_loads (World (init url) [] records n)).2 = Raised OSError ∧
     subscribe_to_systems system_ids w1 = (w1, failed) ∧
     unsubscribe_from_systems system_ids w1 = (w1, failed) ∧
     get_status w1 = (w1, failed)).
Proof.
  intros H. destruct (command_when_not_connected w system_ids H) as (H1 & H2 & H3).
  cbn zeta. rewrite H1, H2, H3. do 9 (split; [reflexivity|]).
  split; [|split].
  - intros url network records n.
    apply command_when_not_connected. by left.
  - intros url e rest records n. split.
    + by run_connect.
    + apply command_when_not_connected. left. by run_connect.
  - intros url records n. split.
    + by run_connect.
    + apply command_when_not_connected. left. by run_connect.
Qed.

(** C2 (as amended). When the first reply decodes to a value for which the
    test of the join (event "phx_reply" and status "ok") is false, connect
    raises the "Failed to join channel" exception carrying the decoded
    reply; exactly the join frame was written, no receive loop is
    scheduled, and the stored subscription identifier and the subscription
    set are untouched; the running flag, set when the connection opened,
    is true after the failed call.  When the connection cannot be opened
    the error of the transport is raised and the session is unchanged;
    when the peer has closed the connection before replying,
    ConnectionClosed is raised. *)
Theorem connect_rejected (w : world) (frame : string) (frames : list string)
    (rest : list dial) (response_data : pyval) :
  net w = Accepted false (frame :: frames) :: rest →
  json_loads frame = Some response_data →
  (join_confirmed response_data w).2 = Returned false →
  let w' := (connect json_loads w).1 in
  (connect json_loads w).2 = Raised (Exception (FailedToJoinChannel response_data)) ∧
  running (self w') = true ∧
  wire w' = [join_message] ∧
  tasks w' = tasks w ∧
  subscription_id (self w') = subscription_id (self w) ∧
  subscriptions (self w') = subscriptions (self w) ∧
  (∀ e c others l k,
     connect json_loads (World c (Refused e :: others) l k) =
       (World c others
          (l ++ [(INFO, LogConnecting
                          (server_url c +:+
                           "/socket/websocket?vsn=2.0.0&client_identifier=" +:+
                           "python_example_client"));
                 (ERROR, LogConnectionFailed e)]) k,
        Raised e)) ∧
  (∀ c queued others l k,
     (connect json_loads (World c (Accepted true queued :: others) l k)).2 =
       Raised ConnectionClosed).
Proof.
  intros Hnet Hloads Hno.
  destruct (join_confirmed_pure response_data) as [r Hr].
  rewrite Hr in Hno. cbn in Hno. subst r.
  destruct w as [c n l k]. cbn in Hnet. subst n.
  assert (Hrefused : ∀ e c' others l' k',
            connect json_loads (World c' (Refused e :: others) l' k') =
              (World c' others
                 (l' ++ [(INFO, LogConnecting
                                  (server_url c' +:+
                                   "/socket/websocket?vsn=2.0.0&client_identifier=" +:+
                                   "python_example_client"));
                         (ERROR, LogConnectionFailed e)]) k',
               Raised e)).
  { intros e c' others l' k'. run_connect. by rewrite <- app_assoc. }
  assert (Hclosed : ∀ c' queued others l' k',
            (connect json_loads (World c' (Accepted true queued :: others) l' k')).2 =
              Raised ConnectionClosed).
  { intros c' queued others l' k'. by run_connect. }
  cbn zeta. run_connect. rewrite Hloads. cbn -[join_confirmed]. rewrite Hr. by cbn.
Qed.
End Connect.

(** C5 as stated fails: the first reply is a phx_reply whose payload has
    status "ok", yet connect raises KeyError at the lookup of "response",
    which the payload does not carry; no subscription identifier is
    stored, no receive loop is scheduled and nothing is returned. *)
Lemma connect_ok_reply_lacking_response :
  let w := fresh [Accepted false ["reply"]] in
  frame_event bare_ok_reply = Some "phx_reply" ∧
  frame_field "payload" bare_ok_reply = Some (PyDict [("status", PyStr "ok")]) ∧
  (join_confirmed bare_ok_reply w).2 = Returned true ∧
  (connect bare_ok_loads w).2 = Raised (KeyError "response") ∧
  returned (connect bare_ok_loads w).2 = false ∧
  subscription_id (self (connect bare_ok_loads w).1) = PyNone ∧
  tasks (connect bare_ok_loads w).1 = 0%nat.
Proof. repeat split; vm_compute; reflexivity. Qed.

(** C4 as stated fails: connect raised "Failed to join channel", so it has
    not succeeded, yet the session it leaves holds the connection and is
    running, and each of the three commands returns; the subscribe frame
    is written after the join and the key is tracked. *)
Lemma commands_sent_after_rejected_join :
  let w := (connect sample_loads (fresh [Accepted false ["join-error"]])).1 in
  (connect sample_loads (fresh [Accepted false ["join-error"]])).2 =
    Raised (Exception (FailedToJoinChannel
                         (reply_frame "error" (PyDict [("reason", PyStr "unauthorized")])))) ∧
  returned (subscribe_to_systems [30000142] w).2 = true ∧
  returned (unsubscribe_from_systems [30000142] w).2 = true ∧
  returned (get_status w).2 = true ∧
  wire (subscribe_to_systems [30000142] w).1 =
    [join_message; subscribe_message [30000142]] ∧
  wire (unsubscribe_from_systems [30000142] w).1 =
    [join_message; unsubscribe_message [30000142]] ∧
  wire (get_status w).1 = [join_message; status_message] ∧
  bool_decide (30000142 ∈ subscriptions (self w)) = false ∧
  bool_decide (30000142 ∈ subscriptions (self (subscribe_to_systems [30000142] w).1)) = true.
Proof. repeat split; vm_compute; reflexivity. Qed.

Lemma commands_refused_when_not_running_witness :
  let w := fresh [] in
  subscribe_to_systems [30000142] w = (w, Raised (Exception NotConnectedToWebSocket)) ∧
  unsubscribe_from_systems [30000142] w = (w, Raised (Exception NotConnectedToWebSocket)) ∧
  get_status w = (w, Raised (Exception NotConnectedToWebSocket)).
Proof.
  intros w.
  assert (H := commands_refused_when_not_running sample_loads w [30000142]
                 (or_introl eq_refl)).
  exact (conj (proj1 H) (conj (proj1 (proj2 H)) (proj1 (proj2 (proj2 H))))).
Defined.

Lemma connect_joins_witness :
  let w := fresh [Accepted false ["join-ok"]] in
  (connect sample_loads w).2 = Returned (PyDict [("subscription_id", PyStr "sub-1")]) ∧
  subscription_id (self (connect sample_loads w).1) = PyStr "sub-1" ∧
  running (self (connect sample_loads w).1) = true.
Proof.
  intros w.
  assert (H := connect_joins sample_loads w "join-ok" [] []
                 [("topic", PyStr "killmails:lobby"); ("event", PyStr "phx_reply");
                  ("payload", PyDict [("status", PyStr "ok");
                                      ("response", PyDict [("subscription_id", PyStr "sub-1")])]);
                  ("ref", PyInt 1)]
                 [("status", PyStr "ok");
                  ("response", PyDict [("subscription_id", PyStr "sub-1")])]
                 [("subscription_id", PyStr "sub-1")]
                 eq_refl eq_refl eq_refl eq_refl eq_refl eq_refl).
  exact (conj (proj1 H) (conj (proj1 (proj2 H)) (proj1 (proj2 (proj2 H))))).
Defined.

Lemma connect_rejected_witness :
  let w := fresh [Accepted false ["join-error"]] in
  (connect sample_loads w).2 =
    Raised (Exception (FailedToJoinChannel
              (reply_frame "error" (PyDict [("reason", PyStr "unauthorized")])))) ∧
  tasks (connect sample_loads w).1 = tasks w.
Proof.
  intros w.
  assert (H := connect_rejected sample_loads w "join-error" [] []
                 (reply_frame "error" (PyDict [("reason", PyStr "unauthorized")]))
                 eq_refl eq_refl eq_refl).
  exact (conj (proj1 H) (proj1 (proj2 (proj2 (proj2 H))))).
Defined.

(** C2 as stated fails: the peer answers the join with status "error",
    connect raises, and the running flag, set when the connection opened,
    is still true after the failed call. *)
Lemma connect_rejected_stays_running :
  let w := fresh [Accepted false ["join-error"]] in
  running (self w) = false ∧
  (connect sample_loads w).2 =
    Raised (Exception (FailedToJoinChannel
              (reply_frame "error" (PyDict [("reason", PyStr "unauthorized")])))) ∧
  running (self (connect sample_loads w).1) = true.
Proof. repeat split; vm_compute; reflexivity. Qed.

(** ** Invariants of the frames on the wire *)

Section Wire.
Variable json_loads : string -> option pyval.

(** A property of the frames written so far that holds of no frame at
    all and survives the five command frames. *)
Variable P : list pyval → Prop.
Hypothesis P_nil : P [].
Hypothesis P_join : ∀ l, P l → P (l ++ [join_message]).
Hypothesis P_subscribe : ∀ l ids, P l → P (l ++ [subscribe_message ids]).
Hypothesis P_unsubscribe : ∀ l ids, P l → P (l ++ [unsubscribe_message ids]).
Hypothesis P_status : ∀ l, P l → P (l ++ [status_message]).
Hypothesis P_leave : ∀ l, P l → P (l ++ [leave_message]).

Local Abbreviation framed := (on_wire P).

Lemma keeps_ret {A : Type} (a : A) (Q : A → Prop) : Q a → keeps framed (mret a) Q.
Proof. intros HQ w Hw. split; [done |]. by intros a' [= <-]. Qed.

Lemma keeps_raise {A : Type} (e : exn) (Q : A → Prop) : keeps framed (raise e) Q.
Proof. intros w Hw. by split. Qed.

Lemma keeps_bind {A B : Type} (m : M A) (f : A → M B) (Q : A → Prop) (R : B → Prop) :
  keeps framed m Q → (∀ a, Q a → keeps framed (f a) R) →
  keeps framed (m ≫= f) R.
Proof.
  intros Hm Hf w Hw. destruct (Hm w Hw) as [H1 H2].
  unfold mbind, M_bind. destruct (m w) as [w1 [a | e | |]]; cbn in *; try done.
  apply (Hf a (H2 a eq_refl) w1 H1).
Qed.

Lemma keeps_try_except {A : Type} (body : M A) (handler : exn → option (M A))
    (Q : A → Prop) :
  keeps framed body Q →
  (∀ e h, handler e = Some h → keeps framed h Q) →
  keeps framed (try_except body handler) Q.
Proof.
  intros Hb Hh w Hw. destruct (Hb w Hw) as [H1 H2].
  unfold try_except. destruct (body w) as [w1 [a | e | |]]; cbn in *; try done.
  destruct (handler e) as [h |] eqn:He; [| done].
  apply (Hh e h He w1 H1).
Qed.

(** What leaves the websocket alone keeps every such property. *)
Lemma keeps_same_wire {A : Type} (m : M A) :
  (∀ w, wire (m w).1 = wire w) → keeps framed m (λ _, True).
Proof. intros Hm w Hw. unfold on_wire. by rewrite Hm. Qed.

Lemma keeps_log_only {A : Type} (m : M A) : log_only m → keeps framed m (λ _, True).
Proof.
  intros (l & r & _ & Hm). apply keeps_same_wire. intros w. by rewrite Hm.
Qed.

Lemma keeps_logger lv msg : keeps framed (logger lv msg) (λ _, True).
Proof. by apply keeps_same_wire. Qed.

Lemma keeps_get_self : keeps framed get_self (λ _, True).
Proof. by apply keeps_same_wire. Qed.

Lemma keeps_set_running b : keeps framed (set_running b) (λ _, True).
Proof. by apply keeps_same_wire. Qed.

Lemma keeps_set_subscriptions s : keeps framed (set_subscriptions s) (λ _, True).
Proof. by apply keeps_same_wire. Qed.

Lemma keeps_set_subscription_id v : keeps framed (set_subscription_id v) (λ _, True).
Proof. by apply keeps_same_wire. Qed.

Lemma keeps_create_task : keeps framed create_task_listener (λ _, True).
Proof. by apply keeps_same_wire. Qed.

Lemma keeps_py_getitem v key : keeps framed (py_getitem v key) (λ _, True).
Proof.
  apply keeps_same_wire. intros w. unfold py_getitem.
  destruct v; try done. by destruct (dict_lookup key entries).
Qed.

Lemma keeps_loads text : keeps framed (loads json_loads text) (λ _, True).
Proof.
  apply keeps_same_wire. intros w. unfold loads. by destruct (json_loads text).
Qed.

Lemma keeps_join_confirmed d : keeps framed (join_confirmed d) (λ _, True).
Proof.
  apply keeps_same_wire. intros w.
  destruct (join_confirmed_pure d) as [r Hr]. by rewrite Hr.
Qed.

Lemma keeps_ws_recv : keeps framed ws_recv (λ _, True).
Proof.
  apply keeps_same_wire. intros w. unfold ws_recv, wire. run_method.
  destruct (websocket (self w)) as [t |] eqn:Hws; cbn; [| by rewrite Hws].
  destruct (inbox t); cbn; [| done]. destruct (closed t); cbn; by rewrite Hws.
Qed.

Lemma keeps_ws_close : keeps framed ws_close (λ _, True).
Proof.
  apply keeps_same_wire. intros w. unfold ws_close, wire. run_method.
  destruct (websocket (self w)) as [t |] eqn:Hws; cbn; [done | by rewrite Hws].
Qed.

Lemma keeps_ws_send data :
  (∀ l, P l → P (l ++ [data])) → keeps framed (ws_send data) (λ _, True).
Proof.
  intros Hdata w Hw. split; [| done]. unfold on_wire, wire in *. unfold ws_send.
  run_method. destruct (websocket (self w)) as [t |] eqn:Hws; cbn; [| by rewrite Hws].
  destruct (closed t); cbn; [by rewrite Hws | by apply Hdata].
Qed.

Lemma keeps_websockets_connect u :
  keeps framed (websockets_connect u) (λ t, sent t = []).
Proof.
  intros w Hw. unfold websockets_connect.
  destruct (net w) as [| [e | pc frames] rest]; cbn; split; try done.
  by intros a [= <-].
Qed.

Lemma keeps_set_websocket_new t :
  sent t = [] → keeps framed (set_websocket (Some t)) (λ _, True).
Proof.
  intros Ht w _. split; [| done]. unfold on_wire, wire. run_method. by rewrite Ht.
Qed.

Create HintDb keeps_db.
#[local] Hint Resolve keeps_logger keeps_get_self keeps_set_running
  keeps_set_subscriptions keeps_set_subscription_id keeps_create_task keeps_py_getitem
  keeps_loads keeps_join_confirmed keeps_ws_recv keeps_ws_close keeps_raise
  keeps_websockets_connect : keeps_db.

Ltac keeps_step :=
  match goal with
  | |- keeps _ (_ ≫= _) _ => eapply keeps_bind; [| intros ? ?]
  | |- keeps _ (try_except _ _) _ =>
      apply keeps_try_except; [| intros ? ? Hh; cbn in Hh; injection Hh as <-]
  | |- keeps _ (if ?b then _ else _) _ => destruct b
  | |- keeps _ (mret _) _ => by apply keeps_ret
  | |- keeps _ (ws_send _) _ => apply keeps_ws_send; solve [auto]
  | |- keeps _ (set_websocket (Some _)) _ => by apply keeps_set_websocket_new
  | |- keeps _ (py_get _ _) _ => apply keeps_log_only, log_only_py_get
  | |- keeps _ _ _ => solve [auto with keeps_db]
  end.

Lemma keeps_subscribe ids : keeps framed (subscribe_to_systems ids) (λ _, True).
Proof. unfold subscribe_to_systems. repeat keeps_step. Qed.

Lemma keeps_unsubscribe ids : keeps framed (unsubscribe_from_systems ids) (λ _, True).
Proof. unfold unsubscribe_from_systems. repeat keeps_step. Qed.

Lemma keeps_get_status : keeps framed get_status (λ _, True).
Proof. unfold get_status. repeat keeps_step. Qed.

Lemma keeps_disconnect : keeps framed disconnect (λ _, True).
Proof.
  unfold disconnect. repeat keeps_step.
Qed.

Lemma keeps_connect : keeps framed (connect json_loads) (λ _, True).
Proof.
  unfold connect. repeat keeps_step.
Qed.

Lemma keeps_call c : keeps framed (call json_loads c) (λ _, True).
Proof.
  destruct c; cbn [call];
    auto using keeps_connect, keeps_subscribe, keeps_unsubscribe, keeps_get_status.
  eapply keeps_bind; [apply keeps_disconnect | intros; by apply keeps_ret].
Qed.

Lemma calls_on_wire (cs : list command) : ∀ w,
  framed w → framed (calls json_loads cs w).1.
Proof.
  induction cs as [| c cs IH]; intros w Hw; [done |].
  cbn [calls]. destruct (keeps_call c w Hw) as [H1 _].
  destruct (call json_loads c w) as [w1 r]. cbn in H1.
  destruct r; try done.
  - specialize (IH w1 H1). by destruct (calls json_loads cs w1).
  - specialize (IH w1 H1). by destruct (calls json_loads cs w1).
Qed.
End Wire.

Lemma fixed_ref_snoc (l : list pyval) (frame : pyval) :
  has_fixed_ref frame = true →
  Forall (λ f, has_fixed_ref f = true) l →
  Forall (λ f, has_fixed_ref f = true) (l ++ [frame]).
Proof. intros Hf Hl. apply Forall_app. split; [done |]. by constructor. Qed.

(** C3 (as amended). The ref on an outbound frame is the constant written
    in the source for its event: 1 for the join, 2 for every subscribe,
    3 for every unsubscribe, 4 for every status request, 5 for the leave.
    After any sequence of commands on a new session every frame on the
    wire carries the ref of its event; frames of different events carry
    different refs and frames of one event carry the same ref. *)
Theorem refs_are_fixed_per_event (json_loads : string → option pyval)
    (cs : list command) (url : string) (network : list dial) :
  let w := (calls json_loads cs (World (init url) network [] 0)).1 in
  Forall (λ frame, has_fixed_ref frame = true) (wire w) ∧
  frame_ref join_message = Some 1 ∧
  (∀ ids, frame_ref (subscribe_message ids) = Some 2) ∧
  (∀ ids, frame_ref (unsubscribe_message ids) = Some 3) ∧
  frame_ref status_message = Some 4 ∧
  frame_ref leave_message = Some 5.
Proof.
  split; [| done].
  apply (calls_on_wire json_loads (Forall (λ frame, has_fixed_ref frame = true))).
  - constructor.
  - intros l Hl. by apply fixed_ref_snoc.
  - intros l ids Hl. by apply fixed_ref_snoc.
  - intros l ids Hl. by apply fixed_ref_snoc.
  - intros l Hl. by apply fixed_ref_snoc.
  - intros l Hl. by apply fixed_ref_snoc.
  - constructor.
Qed.

(** C3 as stated fails: two subscribe calls on a joined session put the
    same ref, 2, on the wire, so the refs are neither unique nor strictly
    increasing. *)
Lemma two_subscribes_share_a_ref :
  let w := (calls sample_loads [Connect; Subscribe [30000142]; Subscribe [30002659]]
              (fresh [Accepted false ["join-ok"]])).1 in
  refs w = [1; 2; 2] ∧ ¬ NoDup (refs w) ∧ ¬ StronglySorted Z.lt (refs w).
Proof.
  intros w. assert (E : refs w = [1; 2; 2]) by (vm_compute; reflexivity).
  split; [exact E |]. revert E. generalize (refs w). intros l ->. split.
  - intros H. apply NoDup_cons in H as [_ H]. apply NoDup_cons in H as [H _].
    apply H. by left.
  - intros H. apply StronglySorted_inv in H as [H _].
    apply StronglySorted_inv in H as [_ H]. apply Forall_inv in H. lia.
Qed.

(** * Further properties *)

(** ** The three commands, in every state *)

(** The session splits three ways: the guard refuses, the [send] raises,
    or the frame goes out. *)
Lemma session_state (w : world) :
  (websocket (self w) = None ∨ running (self w) = false) ∧
    running (self w) && is_open w = false ∨
  (∃ t, websocket (self w) = Some t ∧ running (self w) = true ∧ closed t = true) ∧
    running (self w) && is_open w = false ∨
  (∃ t, websocket (self w) = Some t ∧ running (self w) = true ∧ closed t = false) ∧
    running (self w) && is_open w = true.
Proof.
  unfold is_open. destruct (websocket (self w)) as [t |] eqn:Hws.
  - destruct (running (self w)) eqn:Hrun.
    + destruct (closed t) eqn:Hcl; [right; left | right; right]; split; eauto.
    + left. split; [by right | done].
  - left. split; [by left | by rewrite andb_false_r].
Qed.

Ltac by_session_state w ids :=
  destruct (session_state w) as [[Hno Hb] | [[(t & Hws & Hrun & Hcl) Hb] | [(t & Hws & Hrun & Hcl) Hb]]];
  rewrite ?Hb;
  [ rewrite ?(proj1 (command_when_not_connected w ids Hno)),
      ?(proj1 (proj2 (command_when_not_connected w ids Hno))),
      ?(proj2 (proj2 (command_when_not_connected w ids Hno)))
  | rewrite ?(proj1 (command_on_closed w t ids Hws Hrun Hcl)),
      ?(proj1 (proj2 (command_on_closed w t ids Hws Hrun Hcl))),
      ?(proj2 (proj2 (command_on_closed w t ids Hws Hrun Hcl)))
  | rewrite ?(subscribe_open w t ids Hws Hrun Hcl),
      ?(unsubscribe_open w t ids Hws Hrun Hcl),
      ?(get_status_open w t Hws Hrun Hcl) ].

(** unsubscribe_from_systems on a running session with an open
    connection: one unsubscribe frame with exactly the given keys, the keys
    leave the set at once, no reply is read, the remaining set is
    returned. *)
Theorem unsubscribe_sends_and_tracks (w : world) (t : transport) (system_ids : list Z) :
  websocket (self w) = Some t → running (self w) = true → closed t = false →
  let w' := (unsubscribe_from_systems system_ids w).1 in
  wire w' = wire w ++ [unsubscribe_message system_ids] ∧
  frame_event (unsubscribe_message system_ids) = Some "unsubscribe_systems" ∧
  frame_field "payload" (unsubscribe_message system_ids) =
    Some (PyDict [("systems", PyList (map PyInt system_ids))]) ∧
  subscriptions (self w') = subscriptions (self w) ∖ list_to_set system_ids ∧
  (unsubscribe_from_systems system_ids w).2 =
    Returned (PyDict [("subscribed_systems", py_list_of_set (subscriptions (self w')))]) ∧
  inbox <$> websocket (self w') = Some (inbox t).
Proof.
  intros Hws Hrun Hopen. cbn zeta.
  rewrite (unsubscribe_open w t system_ids Hws Hrun Hopen).
  unfold wire. rewrite Hws. by cbn.
Qed.

Lemma unsubscribe_sends_and_tracks_witness :
  let w := joined [] in
  let w' := (unsubscribe_from_systems [30000142] w).1 in
  wire w' = wire w ++ [unsubscribe_message [30000142]] ∧
  subscriptions (self w') = subscriptions (self w) ∖ list_to_set [30000142].
Proof.
  intros w w'.
  assert (H := unsubscribe_sends_and_tracks w
                 (Transport sample_uri false [join_message] []) [30000142]).
  split; apply H; vm_compute; reflexivity.
Defined.

(** get_status on a running session with an open connection: one status
    frame goes out, and the snapshot returned is the local state (stored
    identifier, tracked set, connected true); nothing in the session
    changes and no reply is read. *)
Theorem get_status_snapshot (w : world) (t : transport) :
  websocket (self w) = Some t → running (self w) = true → closed t = false →
  let w' := (get_status w).1 in
  (get_status w).2 =
    Returned (PyDict [("subscription_id", subscription_id (self w));
                      ("subscribed_systems", py_list_of_set (subscriptions (self w)));
                      ("connected", PyBool true)]) ∧
  wire w' = wire w ++ [status_message] ∧
  subscriptions (self w') = subscriptions (self w) ∧
  subscription_id (self w') = subscription_id (self w) ∧
  running (self w') = true ∧
  inbox <$> websocket (self w') = Some (inbox t) ∧
  logged w' = logged w.
Proof.
  intros Hws Hrun Hopen. cbn zeta. rewrite (get_status_open w t Hws Hrun Hopen).
  unfold wire. rewrite Hws. by cbn.
Qed.

Lemma get_status_snapshot_witness :
  (get_status (joined [])).2 =
    Returned (PyDict [("subscription_id", subscription_id (self (joined [])));
                      ("subscribed_systems",
                       py_list_of_set (subscriptions (self (joined []))));
                      ("connected", PyBool true)]).
Proof.
  refine (proj1 (get_status_snapshot (joined [])
                   (Transport sample_uri false [join_message] []) _ _ _));
    vm_compute; reflexivity.
Defined.

(** On a running session whose connection takes the frames, subscribing
    to keys and then unsubscribing from the same keys returns, leaves the
    set without those keys, and gives back the set held before exactly
    when none of the keys was in it; the two frames are written in that
    order after what was on the wire. *)
Theorem subscribe_then_unsubscribe (w : world) (t : transport) (system_ids : list Z) :
  websocket (self w) = Some t → running (self w) = true → closed t = false →
  let w1 := (subscribe_to_systems system_ids w).1 in
  let w2 := (unsubscribe_from_systems system_ids w1).1 in
  returned (unsubscribe_from_systems system_ids w1).2 = true ∧
  subscriptions (self w2) = subscriptions (self w) ∖ list_to_set system_ids ∧
  (subscriptions (self w2) = subscriptions (self w) ↔
   ∀ k, k ∈ system_ids → k ∉ subscriptions (self w)) ∧
  wire w2 = wire w ++ [subscribe_message system_ids; unsubscribe_message system_ids].
Proof.
  intros Hws Hrun Hopen. cbn zeta.
  rewrite (subscribe_open w t system_ids Hws Hrun Hopen).
  erewrite unsubscribe_open; [| reflexivity ..]. cbn.
  assert (Hset : (subscriptions (self w) ∪ list_to_set system_ids) ∖
                   list_to_set system_ids =
                 subscriptions (self w) ∖ (list_to_set system_ids : gset Z)).
  { apply set_eq. intros k.
    rewrite !elem_of_difference, elem_of_union. tauto. }
  rewrite Hset. repeat split.
  - intros Heq k Hk Hin. rewrite <- Heq in Hin.
    apply elem_of_difference in Hin as [_ Hin]. apply Hin.
    by apply elem_of_list_to_set.
  - intros Hno. apply set_eq. intros k.
    rewrite elem_of_difference, elem_of_list_to_set.
    split; [by intros [? _] |]. intros Hk. split; [done |].
    intros Hin. by apply (Hno k Hin).
  - unfold wire. rewrite Hws. by rewrite <- app_assoc.
Qed.

Lemma subscribe_then_unsubscribe_witness :
  let w := joined [] in
  subscriptions
    (self (unsubscribe_from_systems [30000142]
             (subscribe_to_systems [30000142] w).1).1) =
  subscriptions (self w) ∖ list_to_set [30000142].
Proof.
  intros w.
  refine (proj1 (proj2 (subscribe_then_unsubscribe w
                   (Transport sample_uri false [join_message] []) [30000142] _ _ _)));
    vm_compute; reflexivity.
Defined.

(** None of the three commands reads an inbound frame, closes the
    connection, clears the running flag or touches the stored
    identifier, in any state of the session; each returns exactly when
    the session is running with an open connection, and writes its frame
    exactly then. *)
Theorem commands_leave_connection_state (w : world) (system_ids : list Z) :
  let go := running (self w) && is_open w in
  connection_untouched w (subscribe_to_systems system_ids w).1 ∧
  connection_untouched w (unsubscribe_from_systems system_ids w).1 ∧
  connection_untouched w (get_status w).1 ∧
  returned (subscribe_to_systems system_ids w).2 = go ∧
  returned (unsubscribe_from_systems system_ids w).2 = go ∧
  returned (get_status w).2 = go ∧
  wire (subscribe_to_systems system_ids w).1 =
    (if go then wire w ++ [subscribe_message system_ids] else wire w) ∧
  wire (unsubscribe_from_systems system_ids w).1 =
    (if go then wire w ++ [unsubscribe_message system_ids] else wire w) ∧
  wire (get_status w).1 = (if go then wire w ++ [status_message] else wire w).
Proof.
  cbn zeta. unfold connection_untouched.
  by_session_state w system_ids; try done.
  unfold wire. cbn. rewrite ?Hws, ?Hrun. cbn. by rewrite Hcl.
Qed.

(** ** Leaving and coming back *)

Lemma disconnect_keeps_tracking (w : world) :
  subscriptions (self (disconnect w).1) = subscriptions (self w) ∧
  subscription_id (self (disconnect w).1) = subscription_id (self w).
Proof.
  destruct (websocket (self w)) as [t |] eqn:Hws.
  - destruct (closed t) eqn:Hcl.
    + by rewrite (disconnect_closed w t Hws Hcl).
    + by rewrite (disconnect_open w t Hws Hcl).
  - by rewrite (disconnect_unconnected w Hws).
Qed.

(** After disconnect every command is refused by its guard, whatever the
    session was before: it raises "Not connected to WebSocket" and changes
    nothing. *)
Theorem commands_refused_after_disconnect (w : world) (system_ids : list Z) :
  let w1 := (disconnect w).1 in
  subscribe_to_systems system_ids w1 = (w1, Raised (Exception NotConnectedToWebSocket)) ∧
  unsubscribe_from_systems system_ids w1 =
    (w1, Raised (Exception NotConnectedToWebSocket)) ∧
  get_status w1 = (w1, Raised (Exception NotConnectedToWebSocket)).
Proof.
  cbn zeta. apply command_when_not_connected. right.
  by destruct (disconnect_once w) as (_ & H & _).
Qed.

Section Tracking.
Variable json_loads : string -> option pyval.

(** disconnect does not clear what the session tracks, and connect does
    not reset it: a session that leaves and connects again, whatever the
    new peer answers, still holds the subscription set it had. *)
Theorem reconnect_keeps_subscriptions (w : world) :
  let w1 := (disconnect w).1 in
  let w2 := (connect json_loads w1).1 in
  subscriptions (self w1) = subscriptions (self w) ∧
  subscription_id (self w1) = subscription_id (self w) ∧
  subscriptions (self w2) = subscriptions (self w).
Proof.
  cbn zeta. destruct (disconnect_keeps_tracking w) as [H1 H2].
  by rewrite connect_keeps_subscriptions, H1, H2.
Qed.

Lemma call_effect_on_set (c : command) (w : world) :
  subscriptions (self (call json_loads c w).1) =
    spec_apply_returned (subscriptions (self w)) (c, (call json_loads c w).2).
Proof.
  unfold spec_apply_returned. destruct c as [| ids | ids | |]; cbn [call fst snd].
  - rewrite connect_keeps_subscriptions. by destruct (returned _).
  - by_session_state w ids; done.
  - by_session_state w ids; done.
  - by_session_state w (@nil Z); done.
  - unfold mbind, M_bind. destruct (disconnect_keeps_tracking w) as [H _].
    destruct (disconnect_once w) as (Hr & _).
    destruct (disconnect w) as [w1 r]. cbn in *. by subst r.
Qed.

(** In every state and for every sequence of calls of the five methods,
    the tracked set is the composition, in call order, of union and
    difference over the subscribe and unsubscribe calls that returned;
    a call that raised, a connect, a status request and a disconnect leave
    it as it is. *)
Theorem tracked_set_changes_only_by_returned_calls (cs : list command) : ∀ w,
  subscriptions (self (calls json_loads cs w).1) =
    fold_left spec_apply_returned (zip cs (calls json_loads cs w).2)
      (subscriptions (self w)).
Proof.
  induction cs as [| c cs IH]; intros w; [done |].
  cbn [calls]. pose proof (call_effect_on_set c w) as Hc.
  destruct (call json_loads c w) as [w1 r]. cbn [fst snd] in Hc.
  destruct r as [v | e | |].
  - specialize (IH w1). destruct (calls json_loads cs w1) as [w2 rs].
    cbn [fst snd zip zip_with fold_left] in *. by rewrite IH, Hc.
  - specialize (IH w1). destruct (calls json_loads cs w1) as [w2 rs].
    cbn [fst snd zip zip_with fold_left] in *. by rewrite IH, Hc.
  - cbn. by rewrite zip_with_nil_r, Hc.
  - cbn. by rewrite zip_with_nil_r, Hc.
Qed.
End Tracking.

(** ** More on connect *)

Section Joining.
Variable json_loads : string -> option pyval.

Ltac open_connect :=
  unfold connect, try_except, websockets_connect, ws_send, ws_recv, loads,
    set_websocket, set_running, set_subscription_id, create_task_listener, logger,
    mbind, M_bind, get_self, put_self, mret, M_ret, raise;
  cbn -[join_confirmed py_getitem py_get String.eqb].

Ltac open_reply :=
  unfold join_confirmed, py_getitem, py_get, py_get_default, py_eq_str,
    mbind, M_bind, mret, M_ret, raise;
  cbn -[String.eqb].

(** connect returns only when the peer accepted the connection while it
    was open, and its first frame decodes to a phx_reply whose payload has
    status "ok" and a response object; the value returned is that
    object. *)
Theorem connect_returns_only_when_joined (w : world) (p : pyval) :
  (connect json_loads w).2 = Returned p →
  ∃ frame frames rest entries payload response,
    net w = Accepted false (frame :: frames) :: rest ∧
    json_loads frame = Some (PyDict entries) ∧
    dict_lookup "event" entries = Some (PyStr "phx_reply") ∧
    dict_lookup "payload" entries = Some (PyDict payload) ∧
    dict_lookup "status" payload = Some (PyStr "ok") ∧
    dict_lookup "response" payload = Some (PyDict response) ∧
    p = PyDict response.
Proof.
  destruct w as [c n l k]. open_connect.
  destruct n as [| [e | [|] [| frame frames]] rest]; cbn -[join_confirmed py_getitem py_get String.eqb];
    try done.
  destruct (json_loads frame) as [data |] eqn:Hloads;
    cbn -[join_confirmed py_getitem py_get String.eqb]; [| done].
  open_reply.
  destruct data as [| | | | | | entries]; cbn -[String.eqb]; try done.
  destruct (dict_lookup "event" entries) as [[| | | | s | |] |] eqn:Hev;
    cbn -[String.eqb]; try done.
  destruct (String.eqb_spec s "phx_reply") as [-> |]; cbn -[String.eqb]; [| done].
  destruct (dict_lookup "payload" entries) as [[| | | | | | payload] |] eqn:Hpl;
    cbn -[String.eqb]; try done.
  destruct (dict_lookup "status" payload) as [[| | | | st | |] |] eqn:Hst;
    cbn -[String.eqb]; try done.
  destruct (String.eqb_spec st "ok") as [-> |]; cbn -[String.eqb]; [| done].
  destruct (dict_lookup "response" payload) as [[| | | | | | response] |] eqn:Hresp;
    cbn -[String.eqb]; try done.
  intros [= <-]. by exists frame, frames, rest, entries, payload, response.
Qed.

(** Whatever the peer does, connect schedules the receive loop exactly
    when it returns, stores a subscription identifier only when it
    returns, and leaves the running flag true as soon as the connection
    was obtained, even if the join then fails; when no connection was
    obtained the flag keeps its value. *)
Theorem connect_side_effects (w : world) :
  let w' := (connect json_loads w).1 in
  let joined := returned (connect json_loads w).2 in
  tasks w' = (if joined then S (tasks w) else tasks w) ∧
  (if joined then True else subscription_id (self w') = subscription_id (self w)) ∧
  running (self w') =
    match net w with
    | Accepted _ _ :: _ => true
    | _ => running (self w)
    end ∧
  server_url (self w') = server_url (self w).
Proof.
  destruct w as [c n l k]. cbn zeta. open_connect.
  destruct n as [| [e | [|] [| frame frames]] rest]; cbn -[join_confirmed py_getitem py_get String.eqb];
    try done.
  destruct (json_loads frame) as [data |];
    cbn -[join_confirmed py_getitem py_get String.eqb]; [| done].
  destruct (join_confirmed_pure data) as [r ->].
  destruct r as [[|] | e | |]; cbn -[py_getitem py_get]; try done.
  unfold py_getitem, py_get, py_get_default.
  destruct data as [| | | | | | entries]; cbn; try done.
  destruct (dict_lookup "payload" entries) as [pl |]; cbn; [| done].
  destruct pl as [| | | | | | payload]; cbn; try done.
  destruct (dict_lookup "response" payload) as [resp |]; cbn; [| done].
  destruct resp; cbn; done.
Qed.

(** A peer that accepts the connection, sends nothing and does not close
    it keeps connect waiting for ever: the join frame is out, the running
    flag is set, and nothing is logged beyond the attempt. *)
Theorem connect_waits_on_silent_peer (w : world) (rest : list dial) :
  net w = Accepted false [] :: rest →
  let w' := (connect json_loads w).1 in
  (connect json_loads w).2 = Pending ∧
  wire w' = [join_message] ∧
  running (self w') = true ∧
  is_open w' = true ∧
  tasks w' = tasks w ∧
  logged w' =
    logged w ++
      [(INFO, LogConnecting
                (server_url (self w) +:+
                 "/socket/websocket?vsn=2.0.0&client_identifier=" +:+
                 "python_example_client"))].
Proof.
  intros Hnet. destruct w as [c n l k]. cbn in Hnet. subst n. by open_connect.
Qed.

(** An "ok" reply that carries no response makes connect fail on the
    missing key, after the running flag was set: KeyError("response") is
    raised and logged, no identifier is stored and no receive loop is
    scheduled. *)
Theorem connect_reply_without_response (w : world) (frame : string)
    (frames : list string) (rest : list dial) (entries payload : list (string * pyval)) :
  net w = Accepted false (frame :: frames) :: rest →
  json_loads frame = Some (PyDict entries) →
  dict_lookup "event" entries = Some (PyStr "phx_reply") →
  dict_lookup "payload" entries = Some (PyDict payload) →
  dict_lookup "status" payload = Some (PyStr "ok") →
  dict_lookup "response" payload = None →
  let w' := (connect json_loads w).1 in
  (connect json_loads w).2 = Raised (KeyError "response") ∧
  last (logged w') = Some (ERROR, LogConnectionFailed (KeyError "response")) ∧
  running (self w') = true ∧
  subscription_id (self w') = subscription_id (self w) ∧
  tasks w' = tasks w.
Proof.
  intros Hnet Hloads Hev Hpl Hst Hresp.
  destruct w as [c n l k]. cbn in Hnet. subst n.
  open_connect. rewrite Hloads. open_reply.
  rewrite Hev. cbn. rewrite Hpl. cbn. rewrite Hst. cbn. rewrite Hresp. cbn.
  by rewrite last_snoc.
Qed.

(** A first frame that is not JSON makes connect fail with the decoder's
    error, after the running flag was set; the frame is consumed. *)
Theorem connect_undecodable_reply (w : world) (frame : string)
    (frames : list string) (rest : list dial) :
  net w = Accepted false (frame :: frames) :: rest →
  json_loads frame = None →
  let w' := (connect json_loads w).1 in
  (connect json_loads w).2 = Raised JSONDecodeError ∧
  last (logged w') = Some (ERROR, LogConnectionFailed JSONDecodeError) ∧
  running (self w') = true ∧
  inbox <$> websocket (self w') = Some frames ∧
  wire w' = [join_message] ∧
  tasks w' = tasks w.
Proof.
  intros Hnet Hloads.
  destruct w as [c n l k]. cbn in Hnet. subst n.
  open_connect. rewrite Hloads. cbn. by rewrite last_snoc.
Qed.
End Joining.

Lemma connect_returns_only_when_joined_witness :
  ∃ frame frames rest entries payload response,
    net (fresh [Accepted false ["join-ok"]]) = Accepted false (frame :: frames) :: rest ∧
    sample_loads frame = Some (PyDict entries) ∧
    dict_lookup "event" entries = Some (PyStr "phx_reply") ∧
    dict_lookup "payload" entries = Some (PyDict payload) ∧
    dict_lookup "status" payload = Some (PyStr "ok") ∧
    dict_lookup "response" payload = Some (PyDict response) ∧
    PyDict [("subscription_id", PyStr "sub-1")] = PyDict response.
Proof.
  apply (connect_returns_only_when_joined sample_loads
           (fresh [Accepted false ["join-ok"]])
           (PyDict [("subscription_id", PyStr "sub-1")])).
  vm_compute. reflexivity.
Defined.

Lemma connect_waits_on_silent_peer_witness :
  (connect sample_loads (fresh [Accepted false []])).2 = Pending.
Proof.
  exact (proj1 (connect_waits_on_silent_peer sample_loads
                  (fresh [Accepted false []]) [] eq_refl)).
Defined.

Lemma connect_reply_without_response_witness :
  (connect bare_ok_loads (fresh [Accepted false ["reply"]])).2 =
    Raised (KeyError "response").
Proof.
  exact (proj1 (connect_reply_without_response bare_ok_loads
                  (fresh [Accepted false ["reply"]]) "reply" [] []
                  [("event", PyStr "phx_reply"); ("payload", PyDict [("status", PyStr "ok")])]
                  [("status", PyStr "ok")]
                  eq_refl eq_refl eq_refl eq_refl eq_refl eq_refl)).
Defined.

Lemma connect_undecodable_reply_witness :
  (connect sample_loads (fresh [Accepted false ["garbage"]])).2 = Raised JSONDecodeError.
Proof.
  exact (proj1 (connect_undecodable_reply sample_loads
                  (fresh [Accepted false ["garbage"]]) "garbage" [] [] eq_refl eq_refl)).
Defined.

(** ** More on the receive loop *)

Section Receiving.
Variable json_loads : string -> option pyval.

Lemma running_with_inbox (w : world) frames :
  running (self (with_inbox frames w)) = running (self w).
Proof. unfold with_inbox. by destruct (websocket (self w)). Qed.

Lemma websocket_with_inbox (w : world) (t : transport) frames :
  websocket (self w) = Some t →
  websocket (self (with_inbox frames w)) =
    Some (Transport (uri t) (closed t) (sent t) frames).
Proof. intros H. unfold with_inbox. by rewrite H. Qed.

Lemma listen_on_running_session (w : world) (t : transport) :
  websocket (self w) = Some t → running (self w) = true →
  let w' := (_listen_for_messages json_loads w).1 in
  (_listen_for_messages json_loads w).2 = (if closed t then Returned tt else Pending) ∧
  running (self w') = negb (closed t) ∧
  websocket (self w') = Some (Transport (uri t) (closed t) (sent t) []) ∧
  (if closed t then last (logged w') = Some (WARNING, LogConnectionClosed) else True) ∧
  subscriptions (self w') = subscriptions (self w) ∧
  subscription_id (self w') = subscription_id (self w).
Proof.
  intros Hws Hrun. cbn zeta.
  assert (Hw : listening w (inbox t ++ [])).
  { split; [done |]. exists t. by rewrite app_nil_r. }
  destruct (listen_while_prefix json_loads (inbox t) 1 w [] Hw) as (l & Hl).
  assert (Hbudget : S (pending_frames w) = (length (inbox t) + 1)%nat).
  { unfold pending_frames. rewrite Hws. lia. }
  set (w1 := add_log (with_inbox [] w) l) in *.
  assert (Hws1 : websocket (self w1) = Some (Transport (uri t) (closed t) (sent t) []))
    by (by apply websocket_with_inbox).
  assert (Hrun1 : running (self w1) = true)
    by (unfold w1; by rewrite self_add_log, running_with_inbox).
  assert (Hsub1 : subscriptions (self w1) = subscriptions (self w))
    by (unfold w1; by rewrite self_add_log, subscriptions_with_inbox).
  assert (Hsid1 : subscription_id (self w1) = subscription_id (self w))
    by (unfold w1; by rewrite self_add_log, subscription_id_with_inbox).
  unfold _listen_for_messages, try_finally, try_except. rewrite Hbudget, Hl.
  cbn [listen_while].
  rewrite Hrun1, Hws1. rewrite bool_decide_eq_true_2 by done. cbn [andb].
  unfold mbind, M_bind.
  rewrite (listen_once_empty json_loads w1 _ Hws1 eq_refl). cbn [closed].
  clearbody w1. clear Hl Hw Hbudget.
  destruct w1 as [[u ws S sid run] n lg k]. cbn in Hws1, Hrun1, Hsub1, Hsid1. subst.
  unfold set_running, add_log, mbind, M_bind, get_self, put_self, mret, M_ret.
  destruct (closed t); cbn -[last]; [| done].
  by rewrite last_snoc.
Qed.

(** A loop that is let run on a running session reads every frame that
    is there.  If the connection is closed it then logs the closure,
    returns and leaves the running flag false; if the connection is open
    it waits, the flag still true. *)
Theorem listen_reads_all_then_ends_on_closure (w : world) (t : transport) :
  websocket (self w) = Some t → running (self w) = true →
  let w' := (_listen_for_messages json_loads w).1 in
  (_listen_for_messages json_loads w).2 = (if closed t then Returned tt else Pending) ∧
  running (self w') = negb (closed t) ∧
  websocket (self w') = Some (Transport (uri t) (closed t) (sent t) []) ∧
  (if closed t then last (logged w') = Some (WARNING, LogConnectionClosed) else True) ∧
  subscriptions (self w') = subscriptions (self w) ∧
  subscription_id (self w') = subscription_id (self w).
Proof. apply listen_on_running_session. Qed.

(** Once the peer has closed the connection, a command raises
    ConnectionClosed from its [send] as long as the receive loop has not
    taken its turn, and is refused by the guard, with "Not connected to
    WebSocket", once the loop has. *)
Theorem commands_after_peer_closed (w : world) (t : transport) (system_ids : list Z) :
  websocket (self w) = Some t → running (self w) = true → closed t = true →
  let w' := (_listen_for_messages json_loads w).1 in
  subscribe_to_systems system_ids w = (w, Raised ConnectionClosed) ∧
  unsubscribe_from_systems system_ids w = (w, Raised ConnectionClosed) ∧
  get_status w = (w, Raised ConnectionClosed) ∧
  subscribe_to_systems system_ids w' = (w', Raised (Exception NotConnectedToWebSocket)) ∧
  unsubscribe_from_systems system_ids w' =
    (w', Raised (Exception NotConnectedToWebSocket)) ∧
  get_status w' = (w', Raised (Exception NotConnectedToWebSocket)).
Proof.
  intros Hws Hrun Hcl. cbn zeta.
  destruct (command_on_closed w t system_ids Hws Hrun Hcl) as (H1 & H2 & H3).
  destruct (listen_on_running_session w t Hws Hrun) as (_ & Hr & _).
  rewrite Hcl in Hr.
  destruct (command_when_not_connected (_listen_for_messages json_loads w).1
              system_ids (or_intror Hr)) as (H4 & H5 & H6).
  done.
Qed.

Lemma listen_while_post (n : nat) : ∀ w,
  (pending_frames w < n)%nat →
  match (listen_while json_loads n w).2 with
  | Returned _ => True
  | Pending =>
      running (self (listen_while json_loads n w).1) = true ∧
      ∃ t, websocket (self (listen_while json_loads n w).1) = Some t ∧
           inbox t = [] ∧ closed t = false
  | Raised _ | Unfinished => False
  end.
Proof.
  induction n as [| n IH]; intros w Hn; [lia |].
  cbn [listen_while]. destruct (running (self w)) eqn:Hrun; cbn [andb]; [| done].
  destruct (websocket (self w)) as [t |] eqn:Hws.
  2: { by rewrite bool_decide_eq_false_2 by (by intros [? ?]). }
  rewrite bool_decide_eq_true_2 by done.
  destruct (inbox t) as [| frame rest] eqn:Hin.
  - unfold mbind, M_bind. rewrite (listen_once_empty json_loads w t Hws Hin).
    destruct (closed t) eqn:Hcl; cbn; [done |]. split; [done |]. by exists t.
  - destruct (listen_once_frame json_loads w t frame rest Hws Hin) as (l & Hl & _).
    unfold mbind, M_bind. rewrite Hl. apply IH.
    unfold pending_frames in *. rewrite Hws, Hin in Hn.
    unfold add_log, with_inbox. rewrite Hws. cbn in *. lia.
Qed.

(** The receive loop never lets an exception out, in any state: it
    either returns, and then the running flag is false, or it is waiting
    on an open connection whose frames it has all read, the flag still
    true. *)
Theorem listen_never_raises (w : world) :
  let w' := (_listen_for_messages json_loads w).1 in
  match (_listen_for_messages json_loads w).2 with
  | Returned _ => running (self w') = false
  | Pending =>
      running (self w') = true ∧
      ∃ t, websocket (self w') = Some t ∧ inbox t = [] ∧ closed t = false
  | Raised _ | Unfinished => False
  end.
Proof.
  cbn zeta. unfold _listen_for_messages, try_finally, try_except.
  pose proof (listen_while_post (S (pending_frames w)) w (Nat.lt_succ_diag_r _)) as H.
  destruct (listen_while json_loads (S (pending_frames w)) w) as [w1 [[] | e | |]];
    cbn in *; done.
Qed.

(** A loop that takes its turn when the session is not running, or has
    no websocket, returns at once: it reads no frame and logs nothing. *)
Theorem listen_stops_when_not_running (w : world) :
  websocket (self w) = None ∨ running (self w) = false →
  let w' := (_listen_for_messages json_loads w).1 in
  (_listen_for_messages json_loads w).2 = Returned tt ∧
  running (self w') = false ∧
  websocket (self w') = websocket (self w) ∧
  logged w' = logged w ∧
  subscriptions (self w') = subscriptions (self w).
Proof.
  intros H. cbn zeta. unfold _listen_for_messages, try_finally, try_except.
  cbn [listen_while].
  assert (Hc : running (self w) && bool_decide (is_Some (websocket (self w))) = false).
  { destruct H as [H | H]; rewrite H; [| done].
    rewrite bool_decide_eq_false_2 by (by intros [? ?]). apply andb_false_r. }
  rewrite Hc. by cbn.
Qed.

(** disconnect stops the loop at its next check: whatever frames are
    still in the inbox, a loop that takes its turn after disconnect reads
    none of them and changes nothing. *)
Theorem listen_after_disconnect (w : world) :
  _listen_for_messages json_loads (disconnect w).1 = ((disconnect w).1, Returned tt).
Proof.
  destruct (disconnect_once w) as (_ & Hrun & _).
  unfold _listen_for_messages, try_finally, try_except. cbn [listen_while].
  rewrite Hrun. cbn.
  destruct (disconnect w) as [[[u ws S sid run] n lg k] r]. cbn in *. by subst run.
Qed.

(** A frame that decodes to something other than an object makes the
    handler raise; the loop logs the error, drops the frame and goes on,
    the session otherwise untouched. *)
Theorem listen_survives_non_object_frame (w : world) (t : transport)
    (frame : string) (rest : list string) (data : pyval) :
  websocket (self w) = Some t → inbox t = frame :: rest →
  json_loads frame = Some data → is_dict data = false →
  listen_once json_loads w =
    (add_log (with_inbox rest w) [(ERROR, LogHandlerError AttributeError)],
     Returned true).
Proof.
  intros Hws Hin Hloads Hdata.
  destruct w as [[u ws S sid run] n lg k]. cbn in Hws. subst ws.
  destruct t as [tu tc ts ti]. cbn in Hin. subst ti.
  unfold listen_once, try_except, ws_recv, set_websocket, loads, mbind, M_bind,
    get_self, put_self, mret, M_ret.
  cbn -[_handle_message]. rewrite Hloads.
  by destruct data.
Qed.
End Receiving.

Lemma listen_reads_all_then_ends_on_closure_witness :
  (_listen_for_messages sample_loads (peer_closes (joined ["garbage"; "kill-count"]))).2 =
    Returned tt.
Proof.
  refine (proj1 (listen_reads_all_then_ends_on_closure sample_loads
                   (peer_closes (joined ["garbage"; "kill-count"]))
                   (Transport sample_uri true [join_message] ["garbage"; "kill-count"])
                   _ _)); vm_compute; reflexivity.
Defined.

Lemma commands_after_peer_closed_witness :
  let w := peer_closes (joined []) in
  let w' := (_listen_for_messages sample_loads w).1 in
  subscribe_to_systems [30000142] w = (w, Raised ConnectionClosed) ∧
  subscribe_to_systems [30000142] w' = (w', Raised (Exception NotConnectedToWebSocket)).
Proof.
  intros w w'.
  assert (H := commands_after_peer_closed sample_loads w
                 (Transport sample_uri true [join_message] []) [30000142]).
  split; apply H; vm_compute; reflexivity.
Defined.

Lemma listen_stops_when_not_running_witness :
  (_listen_for_messages sample_loads (fresh [])).2 = Returned tt.
Proof.
  exact (proj1 (listen_stops_when_not_running sample_loads (fresh [])
                  (or_introl eq_refl))).
Defined.

Lemma listen_survives_non_object_frame_witness :
  listen_once (λ _, Some (PyList [])) (joined ["[]"]) =
    (add_log (with_inbox [] (joined ["[]"])) [(ERROR, LogHandlerError AttributeError)],
     Returned true).
Proof.
  refine (listen_survives_non_object_frame (λ _, Some (PyList [])) (joined ["[]"])
            (Transport sample_uri false [join_message] ["[]"]) "[]" [] (PyList [])
            _ _ _ _); vm_compute; reflexivity.
Defined.

(** ** More on the handler *)

Ltac open_handler :=
  unfold _handle_message, handle_killmail, py_get, py_get_default, py_len, py_iter,
    logger, mbind, M_bind, mret, M_ret, raise.

Lemma killmail_lines_app l1 l2 :
  killmail_lines (l1 ++ l2) = killmail_lines l1 ++ killmail_lines l2.
Proof. unfold killmail_lines. apply omap_app. Qed.

Lemma handle_readable_killmail (i : Z) (killmail : pyval) (w : world) :
  readable_killmail killmail = true →
  ∃ l, handle_killmail i killmail w = (add_log w l, Returned tt) ∧
       killmail_lines l = [(i, killmail_id_of killmail)].
Proof.
  intros Hk. destruct killmail as [| | | | | | entries]; try done.
  cbn in Hk. apply andb_prop in Hk as [Hv Ha].
  open_handler. cbn [killmail_id_of].
  set (victim := default (PyDict []) (dict_lookup "victim" entries)) in *.
  set (attackers := default (PyList []) (dict_lookup "attackers" entries)) in *.
  set (id := default PyNone (dict_lookup "killmail_id" entries)).
  destruct (py_bool victim) eqn:Hbv; cbn in Hv.
  - destruct victim as [| | | | | | ventries]; try done.
    destruct (py_bool attackers) eqn:Hba; cbn in Ha.
    + destruct attackers; try done; cbn; unfold add_log; cbn;
        rewrite <- !app_assoc; eexists; (split; [reflexivity | done]).
    + cbn. unfold add_log. cbn. rewrite <- !app_assoc.
      eexists. split; [reflexivity | done].
  - destruct (py_bool attackers) eqn:Hba; cbn in Ha.
    + destruct attackers; try done; cbn; unfold add_log; cbn;
        rewrite <- ?app_assoc; eexists; (split; [reflexivity | done]).
    + cbn. unfold add_log. cbn. eexists. split; [reflexivity | done].
Qed.

Lemma for_readable_killmails (killmails : list pyval) : ∀ (i : Z) (w : world),
  forallb readable_killmail killmails = true →
  ∃ l, for_killmails i killmails w = (add_log w l, Returned tt) ∧
       killmail_lines l = numbered_from i killmails.
Proof.
  induction killmails as [| km rest IH]; intros i w Hall.
  - exists []. by rewrite add_log_nil.
  - cbn in Hall. apply andb_prop in Hall as [Hkm Hrest].
    destruct (handle_readable_killmail i km w Hkm) as (l1 & H1 & Hl1).
    destruct (IH (i + 1) (add_log w l1) Hrest) as (l2 & H2 & Hl2).
    exists (l1 ++ l2). cbn [for_killmails numbered_from]. unfold mbind, M_bind.
    rewrite H1, H2, add_log_app, killmail_lines_app, Hl1, Hl2. done.
Qed.

(** A killmail_update whose killmails are a list of readable killmails
    (or are missing) is handled to the end: the handler logs the system,
    the number of killmails and the timestamp, then one numbered line per
    killmail, counting from 1 in the order of the list, each with its
    killmail_id (None when the killmail has none). *)
Theorem killmail_update_lists_every_killmail (entries payload : list (string * pyval))
    (killmails : list pyval) (w : world) :
  dict_lookup "event" entries = Some (PyStr "killmail_update") →
  dict_lookup "payload" entries = Some (PyDict payload) →
  default (PyList []) (dict_lookup "killmails" payload) = PyList killmails →
  forallb readable_killmail killmails = true →
  ∃ l,
    _handle_message (PyDict entries) w =
      (add_log w
         ([(INFO, LogNewKillmails (default PyNone (dict_lookup "system_id" payload)));
           (INFO, LogKillmailCount (length killmails));
           (INFO, LogTimestamp (default PyNone (dict_lookup "timestamp" payload)))] ++ l),
       Returned tt) ∧
    killmail_lines l = numbered_from 1 killmails ∧
    length (killmail_lines l) = length killmails.
Proof.
  intros Hev Hpl Hkms Hall.
  destruct (for_readable_killmails killmails 1
              (add_log w
                 [(INFO, LogNewKillmails (default PyNone (dict_lookup "system_id" payload)));
                  (INFO, LogKillmailCount (length killmails));
                  (INFO, LogTimestamp (default PyNone (dict_lookup "timestamp" payload)))])
              Hall) as (l & Hl & Hlines).
  assert (Hhead : _handle_message (PyDict entries) w =
            for_killmails 1 killmails
              (add_log w
                 [(INFO, LogNewKillmails (default PyNone (dict_lookup "system_id" payload)));
                  (INFO, LogKillmailCount (length killmails));
                  (INFO, LogTimestamp (default PyNone (dict_lookup "timestamp" payload)))])).
  { unfold _handle_message, py_get, py_get_default, py_len, py_iter, logger,
      mbind, M_bind, mret, M_ret.
    rewrite Hev, Hpl. cbn -[for_killmails]. rewrite Hkms. cbn -[for_killmails].
    unfold add_log. by rewrite <- !app_assoc. }
  exists l. split; [| split; [done |]].
  - by rewrite Hhead, Hl, add_log_app.
  - rewrite Hlines. clear. generalize 1. induction killmails as [| km rest IH]; intros i.
    + done.
    + cbn. by rewrite IH.
Qed.

Lemma killmail_update_lists_every_killmail_witness :
  ∃ l,
    _handle_message
      (PyDict [("event", PyStr "killmail_update");
               ("payload",
                PyDict [("system_id", PyInt 30000142);
                        ("killmails",
                         PyList [PyDict [("killmail_id", PyInt 7)];
                                 PyDict [("killmail_id", PyInt 9);
                                         ("attackers", PyList [PyDict []])]])])])
      (fresh []) =
      (add_log (fresh [])
         ([(INFO, LogNewKillmails (PyInt 30000142));
           (INFO, LogKillmailCount 2);
           (INFO, LogTimestamp PyNone)] ++ l),
       Returned tt) ∧
    killmail_lines l = [(1, PyInt 7); (2, PyInt 9)].
Proof.
  destruct (killmail_update_lists_every_killmail
              [("event", PyStr "killmail_update");
               ("payload",
                PyDict [("system_id", PyInt 30000142);
                        ("killmails",
                         PyList [PyDict [("killmail_id", PyInt 7)];
                                 PyDict [("killmail_id", PyInt 9);
                                         ("attackers", PyList [PyDict []])]])])]
              [("system_id", PyInt 30000142);
               ("killmails",
                PyList [PyDict [("killmail_id", PyInt 7)];
                        PyDict [("killmail_id", PyInt 9);
                                ("attackers", PyList [PyDict []])]])]
              [PyDict [("killmail_id", PyInt 7)];
               PyDict [("killmail_id", PyInt 9); ("attackers", PyList [PyDict []])]]
              (fresh []) eq_refl eq_refl eq_refl eq_refl) as (l & H1 & H2 & _).
  exists l. split; [exact H1 | exact H2].
Defined.

(** A frame whose event is none of the three the handler knows is
    dropped without a trace: the handler returns, logs nothing and changes
    nothing, whatever the payload is. *)
Theorem unknown_event_is_ignored (entries : list (string * pyval)) (w : world) :
  let event := default PyNone (dict_lookup "event" entries) in
  py_eq_str event "killmail_update" = false →
  py_eq_str event "kill_count_update" = false →
  py_eq_str event "phx_reply" = false →
  _handle_message (PyDict entries) w = (w, Returned tt).
Proof.
  cbn zeta. intros H1 H2 H3.
  unfold _handle_message, py_get, py_get_default, mbind, M_bind, mret, M_ret.
  by rewrite H1, H2, H3.
Qed.

Lemma unknown_event_is_ignored_witness :
  _handle_message (PyDict [("event", PyStr "presence_diff"); ("payload", PyNone)])
    (fresh []) = (fresh [], Returned tt).
Proof.
  exact (unknown_event_is_ignored
           [("event", PyStr "presence_diff"); ("payload", PyNone)] (fresh [])
           eq_refl eq_refl eq_refl).
Defined.

(** A kill_count_update or a phx_reply whose payload is present but is not
    an object (null included) is not reported: the handler raises
    AttributeError before it logs anything. *)
Theorem update_needs_object_payload (entries : list (string * pyval))
    (payload : pyval) (w : world) :
  let event := default PyNone (dict_lookup "event" entries) in
  py_eq_str event "kill_count_update" = true ∨ py_eq_str event "phx_reply" = true →
  dict_lookup "payload" entries = Some payload →
  is_dict payload = false →
  _handle_message (PyDict entries) w = (w, Raised AttributeError).
Proof.
  cbn zeta. intros Hev Hpl Hno.
  unfold _handle_message, py_get, py_get_default, mbind, M_bind, mret, M_ret, raise.
  rewrite Hpl. cbn.
  destruct (default PyNone (dict_lookup "event" entries)) as [| | | | s | |];
    cbn -[String.eqb] in Hev; try (by destruct Hev).
  cbn -[String.eqb].
  destruct (String.eqb s "killmail_update") eqn:E0.
  { apply String.eqb_eq in E0. subst s. by destruct Hev. }
  destruct (String.eqb s "kill_count_update") eqn:E1; [by destruct payload |].
  destruct Hev as [Hev | Hev]; [done |]. rewrite Hev. by destruct payload.
Qed.

Lemma update_needs_object_payload_witness :
  _handle_message (PyDict [("event", PyStr "kill_count_update"); ("payload", PyNone)])
    (fresh []) = (fresh [], Raised AttributeError).
Proof.
  exact (update_needs_object_payload
           [("event", PyStr "kill_count_update"); ("payload", PyNone)] PyNone (fresh [])
           (or_introl eq_refl) eq_refl eq_refl).
Defined.

(** ** The address of the server *)

Lemma replace_absent (old new : string) : ∀ s,
  occurs old s = false → replace_from old new 0 s = s.
Proof.
  induction s as [| c s IH]; intros H; [done |].
  cbn [occurs] in H. apply orb_false_elim in H as [Hp Hs].
  cbn [replace_from]. rewrite Hp. by rewrite (IH Hs).
Qed.

Lemma replace_hit (old new : string) (c : Ascii.ascii) (s : string) (k : nat) :
  String.prefix old (String c s) = true → String.length old = S k →
  replace_from old new 0 (String c s) = new +:+ replace_from old new k s.
Proof.
  intros Hp Hk. cbn [replace_from]. rewrite Hp, Hk.
  by replace (S k - 1)%nat with k by lia.
Qed.

Lemma replace_miss (old new : string) (c : Ascii.ascii) (s : string) :
  String.prefix old (String c s) = false →
  replace_from old new 0 (String c s) = String c (replace_from old new 0 s).
Proof. intros Hp. cbn [replace_from]. by rewrite Hp. Qed.

Lemma replace_skip (old new : string) (k : nat) (c : Ascii.ascii) (s : string) :
  replace_from old new (S k) (String c s) = replace_from old new k s.
Proof. done. Qed.

(** [String.prefix] recurses on its second argument: with the whole of
    [old] matched it still has to look at what follows. *)
Ltac prefix_side :=
  vm_compute;
  first [ reflexivity | match goal with r : string |- _ => destruct r; reflexivity end ].

Ltac replace_step :=
  first
    [ rewrite replace_skip
    | rewrite (replace_hit _ _ _ _ 6) by prefix_side
    | rewrite (replace_hit _ _ _ _ 7) by prefix_side
    | rewrite replace_miss by prefix_side
    | rewrite replace_absent by assumption ];
  cbv [String.append].

Lemma http_pass (rest : string) :
  occurs "http://" rest = false →
  replace_from "http://" "ws://" 0 ("http://" +:+ rest) = "ws://" +:+ rest ∧
  replace_from "http://" "ws://" 0 ("https://" +:+ rest) = "https://" +:+ rest ∧
  replace_from "http://" "ws://" 0 ("ws://" +:+ rest) = "ws://" +:+ rest ∧
  replace_from "http://" "ws://" 0 ("wss://" +:+ rest) = "wss://" +:+ rest.
Proof.
  intros H. cbv [String.append]. repeat split; repeat replace_step; done.
Qed.

Lemma https_pass (rest : string) :
  occurs "https://" rest = false →
  replace_from "https://" "wss://" 0 ("https://" +:+ rest) = "wss://" +:+ rest ∧
  replace_from "https://" "wss://" 0 ("ws://" +:+ rest) = "ws://" +:+ rest ∧
  replace_from "https://" "wss://" 0 ("wss://" +:+ rest) = "wss://" +:+ rest.
Proof.
  intros H. cbv [String.append]. repeat split; repeat replace_step; done.
Qed.

(** For a rest of the address that holds neither "http://" nor
    "https://": __init__ turns "http://" before that rest into "ws://" and
    "https://" into "wss://", and stores an address made of "ws://" or
    "wss://" and that rest as it is.  The proviso is needed in all four
    cases, since every occurrence is replaced, not only a leading one:
    "ws://h/http://x" is stored as "ws://h/ws://x".  Whatever the address,
    the new session has no websocket, no subscription, no identifier, and
    is not running. *)
Theorem init_rewrites_scheme (rest : string) :
  occurs "http://" rest = false → occurs "https://" rest = false →
  server_url (init ("http://" +:+ rest)) = "ws://" +:+ rest ∧
  server_url (init ("https://" +:+ rest)) = "wss://" +:+ rest ∧
  server_url (init ("ws://" +:+ rest)) = "ws://" +:+ rest ∧
  server_url (init ("wss://" +:+ rest)) = "wss://" +:+ rest ∧
  server_url (init "ws://h/http://x") = "ws://h/ws://x" ∧
  server_url (init "wss://h/https://x") = "wss://h/wss://x" ∧
  ∀ url, websocket (init url) = None ∧ subscriptions (init url) = ∅ ∧
         subscription_id (init url) = PyNone ∧ running (init url) = false.
Proof.
  intros H1 H2.
  assert (E1 : server_url (init "ws://h/http://x") = "ws://h/ws://x")
    by (vm_compute; reflexivity).
  assert (E2 : server_url (init "wss://h/https://x") = "wss://h/wss://x")
    by (vm_compute; reflexivity).
  rewrite E1, E2. clear E1 E2.
  unfold init, py_replace. cbn [server_url].
  destruct (http_pass rest H1) as (A1 & A2 & A3 & A4).
  destruct (https_pass rest H2) as (B1 & B2 & B3).
  rewrite A1, A2, A3, A4, B1, B2, B3. done.
Qed.

Lemma init_rewrites_scheme_witness :
  server_url (init ("https://" +:+ "localhost:4004")) = "wss://" +:+ "localhost:4004".
Proof.
  exact (proj1 (proj2 (init_rewrites_scheme "localhost:4004" eq_refl eq_refl))).
Defined.

(** ** The order of the frames on a connection *)

Section Order.
Variable json_loads : string -> option pyval.

Ltac installed :=
  right; eexists; split; [reflexivity |]; first [by left | by right].

(** connect either keeps the websocket the session had (no connection was
    obtained) or installs a new one, on which it has written the join and
    nothing else, or nothing at all when the connection came closed. *)
Lemma connect_websocket (w : world) :
  websocket (self (connect json_loads w).1) = websocket (self w) ∨
  ∃ t, websocket (self (connect json_loads w).1) = Some t ∧
       ((sent t = [] ∧ closed t = true) ∨ (sent t = [join_message] ∧ closed t = false)).
Proof.
  destruct w as [c n l k].
  unfold connect, try_except, websockets_connect, ws_send, ws_recv, loads,
    set_websocket, set_running, set_subscription_id, create_task_listener, logger,
    mbind, M_bind, get_self, put_self, mret, M_ret, raise;
  cbn -[join_confirmed py_getitem py_get].
  destruct n as [| [e | [|] [| frame frames]] rest];
    cbn -[join_confirmed py_getitem py_get]; try (by left);
    try installed.
  destruct (json_loads frame) as [data |]; cbn -[join_confirmed py_getitem py_get];
    [| installed].
  destruct (join_confirmed_pure data) as [r ->].
  destruct r as [[|] | e | |]; cbn -[py_getitem py_get];
    try installed.
  unfold py_getitem, py_get, py_get_default.
  destruct data as [| | | | | | entries]; cbn;
    try installed.
  destruct (dict_lookup "payload" entries) as [p |]; cbn;
    [| installed].
  destruct p as [| | | | | | payload]; cbn;
    try installed.
  destruct (dict_lookup "response" payload) as [resp |]; cbn;
    [| installed].
  destruct resp; cbn; installed.
Qed.

Lemma leave_is_no_other_frame (ids : list Z) :
  leave_message ≠ join_message ∧ leave_message ≠ subscribe_message ids ∧
  leave_message ≠ unsubscribe_message ids ∧ leave_message ≠ status_message.
Proof. by repeat split. Qed.

Lemma not_in_snoc (frame other : pyval) (l : list pyval) :
  frame ∉ l → frame ≠ other → frame ∉ l ++ [other].
Proof.
  intros Hl Hne Hin. apply elem_of_app in Hin as [Hin | Hin]; [done |].
  by apply list_elem_of_singleton in Hin.
Qed.

(** What an open connection looks like under the two orders. *)
Lemma open_connection_order (w : world) (t : transport) :
  websocket (self w) = Some t → closed t = false →
  join_first w → leave_last w →
  (∃ later, sent t = join_message :: later) ∧ leave_message ∉ sent t.
Proof.
  unfold join_first, leave_last. intros -> Hcl Hj Hl. split.
  - destruct Hj as [[_ Hc] | Hj]; [congruence | done].
  - destruct Hl as [Hl | [Hc _]]; [done | congruence].
Qed.

Lemma order_after_append (w : world) (t : transport) (frame : pyval)
    (c' : WandererKillsClient) :
  websocket (self w) = Some t → closed t = false →
  join_first w → leave_last w → leave_message ≠ frame →
  websocket c' = Some (Transport (uri t) false (sent t ++ [frame]) (inbox t)) →
  ∀ n l k, join_first (World c' n l k) ∧ leave_last (World c' n l k).
Proof.
  intros Hws Hcl Hj Hl Hne Hc' n l k.
  destruct (open_connection_order w t Hws Hcl Hj Hl) as [[later Hs] Hno].
  unfold join_first, leave_last. cbn. rewrite Hc'. cbn. split.
  - right. exists (later ++ [frame]). by rewrite Hs.
  - left. by apply not_in_snoc.
Qed.

Lemma call_keeps_order (c : command) (w : world) :
  join_first w → leave_last w →
  join_first (call json_loads c w).1 ∧ leave_last (call json_loads c w).1.
Proof.
  intros Hj Hl. destruct c as [| ids | ids | |]; cbn [call].
  - destruct (connect_websocket w) as [Hsame | (t & Ht & Hcases)].
    + unfold join_first, leave_last in *. by rewrite Hsame.
    + unfold join_first, leave_last. rewrite Ht.
      destruct Hcases as [[Hs Hc] | [Hs Hc]]; rewrite Hs.
      * split; [by left | left; apply not_elem_of_nil].
      * split; [right; by exists [] |].
        left. intros Hin. by apply list_elem_of_singleton in Hin.
  - by_session_state w ids; try done.
    eapply order_after_append; eauto. apply (leave_is_no_other_frame ids).
  - by_session_state w ids; try done.
    eapply order_after_append; eauto. apply (leave_is_no_other_frame ids).
  - by_session_state w (@nil Z); try done.
    eapply order_after_append; eauto. apply (leave_is_no_other_frame []).
  - unfold mbind, M_bind.
    destruct (websocket (self w)) as [t |] eqn:Hws.
    + destruct (closed t) eqn:Hcl.
      * rewrite (disconnect_closed w t Hws Hcl). cbn.
        unfold join_first, leave_last in *. cbn. by rewrite Hws in Hj, Hl.
      * destruct (open_connection_order w t Hws Hcl Hj Hl) as [[later Hs] Hno].
        rewrite (disconnect_open w t Hws Hcl). cbn.
        unfold join_first, leave_last. cbn. split.
        -- right. exists (later ++ [leave_message]). by rewrite Hs.
        -- right. split; [done |]. by exists (sent t).
    + rewrite (disconnect_unconnected w Hws). cbn.
      by unfold join_first, leave_last.
Qed.

Lemma calls_keep_order (cs : list command) : ∀ w,
  join_first w → leave_last w →
  join_first (calls json_loads cs w).1 ∧ leave_last (calls json_loads cs w).1.
Proof.
  induction cs as [| c cs IH]; intros w Hj Hl; [done |].
  cbn [calls]. destruct (call_keeps_order c w Hj Hl) as [Hj1 Hl1].
  destruct (call json_loads c w) as [w1 r]. cbn in Hj1, Hl1.
  destruct r; try done.
  - specialize (IH w1 Hj1 Hl1). by destruct (calls json_loads cs w1).
  - specialize (IH w1 Hj1 Hl1). by destruct (calls json_loads cs w1).
Qed.

(** Whatever calls a user makes on a new session, and whatever the peers
    do, the frames written on the connection the session holds start with
    the join frame, and a leave frame, if there is one, is the only one,
    comes last and is followed by the closing of the connection: no
    command frame ever precedes the join or follows the leave. *)
Theorem frames_are_bracketed_by_join_and_leave (cs : list command) (url : string)
    (network : list dial) :
  let w := (calls json_loads cs (World (init url) network [] 0)).1 in
  join_first w ∧ leave_last w.
Proof. by apply calls_keep_order. Qed.
End Order.

(** ** What a command returns *)

Lemma int_items_of_set (s : gset Z) : int_items (py_list_of_set s) = elements s.
Proof.
  unfold py_list_of_set, int_items. induction (elements s) as [| k l IH]; [done |].
  cbn. by rewrite IH.
Qed.

(** The list a returning subscribe hands back names every tracked system
    exactly once: the systems tracked before and the ones just asked for,
    with no repetition even when a key was given twice or was tracked
    already. *)
Theorem subscribe_returns_each_system_once (w : world) (t : transport)
    (system_ids : list Z) :
  websocket (self w) = Some t → running (self w) = true → closed t = false →
  let listed := subscribed_systems_of (subscribe_to_systems system_ids w).2 in
  NoDup listed ∧
  ∀ k, k ∈ listed ↔ k ∈ subscriptions (self w) ∨ k ∈ system_ids.
Proof.
  intros Hws Hrun Hopen. cbn zeta.
  rewrite (subscribe_open w t system_ids Hws Hrun Hopen).
  cbn [snd subscribed_systems_of dict_lookup]. cbn -[int_items py_list_of_set].
  rewrite int_items_of_set. split; [apply NoDup_elements |].
  intros k. by rewrite elem_of_elements, elem_of_union, elem_of_list_to_set.
Qed.

Lemma subscribe_returns_each_system_once_witness :
  NoDup (subscribed_systems_of
           (subscribe_to_systems [30000142; 30000142] (joined [])).2).
Proof.
  refine (proj1 (subscribe_returns_each_system_once (joined [])
                   (Transport sample_uri false [join_message] [])
                   [30000142; 30000142] _ _ _)); vm_compute; reflexivity.
Defined.

(** ** Frames are handled one by one *)

Section InOrder.
Variable json_loads : string -> option pyval.

(** What the loop logs for a frame depends on the frame alone. *)
Lemma listen_once_records (w : world) (t : transport) (frame : string)
    (rest : list string) :
  websocket (self w) = Some t → inbox t = frame :: rest →
  listen_once json_loads w =
    (add_log (with_inbox rest w) (frame_records json_loads frame), Returned true).
Proof.
  intros Hws Hin. unfold frame_records, lone_frame.
  destruct w as [[u ws S sid run] n lg k]. cbn in Hws. subst ws.
  destruct t as [tu tc ts ti]. cbn in Hin. subst ti.
  unfold listen_once, try_except, ws_recv, set_websocket, loads, mbind, M_bind,
    get_self, put_self, mret, M_ret.
  cbn -[_handle_message].
  destruct (json_loads frame) as [data |]; [| done].
  destruct (log_only_handle_message data) as (l & r & Hr & Hm).
  rewrite !Hm. destruct r as [[] | e | |]; try done.
  destruct Hr as [-> | ->]; cbn; unfold add_log; cbn; by rewrite <- app_assoc.
Qed.

Lemma listen_while_records (frames : list string) : ∀ (n : nat) (w : world) rest,
  listening w (frames ++ rest) →
  listen_while json_loads (length frames + n) w =
    listen_while json_loads n
      (add_log (with_inbox rest w) (concat (map (frame_records json_loads) frames))).
Proof.
  induction frames as [| frame frames IH]; intros n w rest Hw.
  - cbn. rewrite add_log_nil. destruct Hw as (_ & t & Hws & Hin).
    cbn in Hin. subst rest. by rewrite (with_inbox_same _ _ Hws).
  - destruct Hw as (Hrun & t & Hws & Hin).
    cbn [length Nat.add listen_while]. rewrite Hrun, Hws.
    rewrite bool_decide_eq_true_2 by done. cbn [andb]. unfold mbind, M_bind.
    rewrite (listen_once_records w t frame (frames ++ rest) Hws Hin).
    rewrite (IH n _ rest).
    + by rewrite with_inbox_add_log, with_inbox_twice, add_log_app.
    + eapply listening_next. split; [done |]. by exists t.
Qed.

(** The receive loop takes the frames one by one, in the order they
    arrived, and what it logs for a frame does not depend on the session
    or on the other frames: on an open connection the records it adds are,
    frame after frame, those it writes for each frame taken alone. *)
Theorem listen_handles_frames_in_order (w : world) (t : transport) :
  websocket (self w) = Some t → running (self w) = true → closed t = false →
  logged (_listen_for_messages json_loads w).1 =
    logged w ++ concat (map (frame_records json_loads) (inbox t)).
Proof.
  intros Hws Hrun Hcl.
  assert (Hw : listening w (inbox t ++ [])).
  { split; [done |]. exists t. by rewrite app_nil_r. }
  pose proof (listen_while_records (inbox t) 1 w [] Hw) as Hl.
  assert (Hbudget : S (pending_frames w) = (length (inbox t) + 1)%nat).
  { unfold pending_frames. rewrite Hws. lia. }
  set (records := concat (map (frame_records json_loads) (inbox t))) in *.
  set (w1 := add_log (with_inbox [] w) records) in *.
  assert (Hws1 : websocket (self w1) = Some (Transport (uri t) (closed t) (sent t) [])).
  { unfold w1. rewrite self_add_log. unfold with_inbox. by rewrite Hws. }
  assert (Hrun1 : running (self w1) = true).
  { unfold w1. rewrite self_add_log. unfold with_inbox. by rewrite Hws. }
  assert (Hlog1 : logged w1 = logged w ++ records).
  { unfold w1. by rewrite logged_add_log, logged_with_inbox. }
  unfold _listen_for_messages, try_finally, try_except. rewrite Hbudget, Hl.
  cbn [listen_while]. rewrite Hrun1, Hws1. rewrite bool_decide_eq_true_2 by done.
  cbn [andb]. unfold mbind, M_bind.
  rewrite (listen_once_empty json_loads w1 _ Hws1 eq_refl). cbn [closed].
  by rewrite Hcl.
Qed.
End InOrder.

Lemma listen_handles_frames_in_order_witness :
  logged (_listen_for_messages sample_loads (joined ["kill-count"; "garbage"])).1 =
    logged (joined ["kill-count"; "garbage"]) ++
    concat (map (frame_records sample_loads) ["kill-count"; "garbage"]).
Proof.
  refine (listen_handles_frames_in_order sample_loads (joined ["kill-count"; "garbage"])
            (Transport sample_uri false [join_message] ["kill-count"; "garbage"]) _ _ _);
    vm_compute; reflexivity.
Defined.

